(** * uptide: the NetCDF reader and its bilinear interpolator

    A shallow embedding of [uptide/netcdf_reader.py]: the class
    [Interpolator] (mask-aware bilinear interpolation with an extrapolation
    fallback) and the class [NetCDFInterpolator] (grid set-up, windowing,
    mask and field selection), followed by the properties of both.

    Conventions of the embedding.
    - Numbers.  The source computes with binary64 floats: Python floats and
      numpy [float64] scalars.  The two classes are embedded over an
      interface [Arithmetic] that names the operations the source uses, so
      that what is proved of the control flow holds whatever these
      operations return.  The instance [numpy_float64] gives them their
      binary64 meaning on the primitive floats, with the rounding, [inf]
      and [nan] of IEEE 754; a division by zero yields [inf] or [nan] there,
      as it does on numpy scalars.  The instance [python_float] differs in
      one point: a division by zero raises [ZeroDivisionError], as it does
      on Python floats.  Statements about numbers that the code returns are
      made on [numpy_float64].
    - Integers.  [math.floor] and [int] are taken to give an integer ([Z])
      and to raise [OverflowError] on an infinity and [ValueError] on a
      [nan].
    - Arrays.  A numpy array is its shape together with its samples, read
      through numpy's indexing rule: a negative index counts from the end,
      an index outside [-n, n) raises [IndexError].  Arrays of rank 0, 1
      and 2 are embedded; a field with leading non-spatial axes (rank 3 and
      more) repeats the same arithmetic for each of its components and is
      left out.
    - Effects.  A method returns its outcome (a value or the exception it
      raises) together with the object as the call leaves it: an exception
      does not undo the assignments made before it.  The line printed by
      [find_extrapolation_points] is not recorded. *)

From Stdlib Require Import ZArith QArith Qround Bool List String Lia Lqa.
From Stdlib Require Import Floats.
Import ListNotations.

#[local] Set Warnings "-inexact-float".

Local Open Scope Z_scope.

(** ** Exceptions and outcomes *)

(** The exceptions, over the type [num] of the coordinates that a
    [CoordinateError] carries. *)
Inductive exn (num : Type) : Type :=
| CoordinateError (message : string) (x : num * num) (i j : Z)
| NetCDFInterpolatorError (message : string)
| IndexError
| KeyError (key : string)
| TypeError (message : string)
| AttributeError (message : string)
| ZeroDivisionError
| OverflowError
| ValueError.

Arguments CoordinateError {num} message x i j.
Arguments NetCDFInterpolatorError {num} message.
Arguments IndexError {num}.
Arguments KeyError {num} key.
Arguments TypeError {num} message.
Arguments AttributeError {num} message.
Arguments ZeroDivisionError {num}.
Arguments OverflowError {num}.
Arguments ValueError {num}.

Inductive outcome (num A : Type) : Type :=
| Return (a : A)
| Raise (e : exn num).

Arguments Return {num A} a.
Arguments Raise {num A} e.

Definition bind {num A B : Type} (c : outcome num A) (k : A -> outcome num B)
  : outcome num B :=
  match c with
  | Return a => k a
  | Raise e => Raise e
  end.

Declare Scope outcome_scope.
Delimit Scope outcome_scope with outcome.
Notation "x <- c ;; k" := (bind c (fun x => k))
  (at level 100, c at next level, right associativity) : outcome_scope.
Notation "' p <- c ;; k" := (bind c (fun v => let p := v in k))
  (at level 100, p pattern, c at next level, right associativity) : outcome_scope.
Local Open Scope outcome_scope.

(** [except IndexError: raise e], applied to the outcome of a [try] body. *)
Definition except_IndexError {num A S : Type} (body : outcome num A * S)
    (e : exn num) : outcome num A * S :=
  match fst body with
  | Raise IndexError => (Raise e, snd body)
  | _ => body
  end.

(** ** Numbers *)

(** The operations of the source on its floats. *)
Class Arithmetic (num : Type) : Type := {
  (** the literals [0.0] and [1.0] *)
  zero : num;
  one : num;
  (** [a + b], [a - b], [a * b] *)
  add : num -> num -> num;
  sub : num -> num -> num;
  mul : num -> num -> num;
  (** [a / b] on two floats *)
  truediv : num -> num -> outcome num num;
  (** [a / n] on a numpy scalar and an [int] *)
  truediv_int : num -> Z -> num;
  (** an [int] where a float is expected, as in [imin*deltax] *)
  of_int : Z -> num;
  (** The rational number that a finite float is; what [math.floor] and
      [int] raise on the others. *)
  rational : num -> outcome num Q;
  (** [a % 1.0] *)
  mod1 : num -> num;
  (** [a > 0.0] *)
  positive : num -> bool;
  (** the truth value of [a] *)
  truthy : num -> bool;
  (** [a == b] *)
  equal : num -> num -> bool;
  (** The comparison of two components of a dict key: the same object, or
      [==]. *)
  same_key : num -> num -> bool;
  same_key_refl : forall a : num, same_key a a = true;
  (** A division by a number above zero does not fail. *)
  truediv_positive :
    forall a b : num, positive b = true -> exists v, truediv a b = Return v
}.

Declare Scope num_scope.
Delimit Scope num_scope with num.
Notation "a + b" := (add a b) : num_scope.
Notation "a - b" := (sub a b) : num_scope.
Notation "a * b" := (mul a b) : num_scope.

(** Truncation of a rational toward zero. *)
Definition truncate (q : Q) : Z := Z.quot (Qnum q) (Zpos (Qden q)).

Section Rounding.
Context {num : Type} {A : Arithmetic num}.

(** [math.floor(x)] *)
Definition floor (x : num) : outcome num Z :=
  q <- rational x ;; Return (Qfloor q).

(** [int(x)] on a float: truncation toward zero. *)
Definition int (x : num) : outcome num Z :=
  q <- rational x ;; Return (truncate q).

End Rounding.

(** *** binary64 *)

Module Binary64.

(** The number that a finite float is: its significand scaled by a power of
    two. *)
Definition rational (x : float) : outcome float Q :=
  match Prim2SF x with
  | S754_zero _ => Return 0%Q
  | S754_infinity _ => Raise OverflowError
  | S754_nan => Raise ValueError
  | S754_finite s m e =>
      let n := if s then Zneg m else Zpos m in
      Return (match e with
              | Z0 => inject_Z n
              | Zpos p => inject_Z (n * 2 ^ Zpos p)
              | Zneg p => Qmake n (2 ^ p)
              end)
  end.

(** The float nearest to an integer. *)
Definition of_int (n : Z) : float :=
  SF2Prim (binary_normalize prec emax n 0 false).

(** [x % 1.0]: the remainder [fmod(x, 1.0)] of the truncated division, which
    is exact, moved to the sign of the divisor. *)
Definition mod1 (x : float) : float :=
  match rational x with
  | Raise _ => (x - x)%float
  | Return q =>
      let r := (x - of_int (truncate q))%float in
      if (r =? 0)%float then 0%float
      else if (r <? 0)%float then (r + 1)%float
      else r
  end.

(** A number above zero is not zero. *)
Lemma positive_nonzero (b : float) :
  (0 <? b)%float = true -> (b =? 0)%float = false.
Proof.
  rewrite (ltb_spec 0 b), (FloatAxioms.eqb_spec b 0). unfold SFltb, SFeqb.
  change (Prim2SF 0) with (S754_zero false).
  destruct (Prim2SF b) as [s | s | | s m e]; simpl;
    try discriminate; try reflexivity; destruct s; reflexivity.
Qed.

(** [a / b] on Python floats. *)
Definition truediv (a b : float) : outcome float float :=
  if (b =? 0)%float then Raise ZeroDivisionError else Return (a / b)%float.

Lemma python_truediv_returns (a b : float) :
  (0 <? b)%float = true -> exists v, truediv a b = Return v.
Proof.
  intros H. unfold truediv. rewrite (positive_nonzero b H).
  eexists. reflexivity.
Qed.

(** Two floats as components of a key: equal, or both [nan] (a [nan] is
    found again in a dict through the identity of the object). *)
Definition same_key (a b : float) : bool :=
  match Prim2SF a, Prim2SF b with
  | S754_zero _, S754_zero _ => true
  | S754_infinity s, S754_infinity s' => Bool.eqb s s'
  | S754_nan, S754_nan => true
  | S754_finite s m e, S754_finite s' m' e' =>
      Bool.eqb s s' && Pos.eqb m m' && Z.eqb e e'
  | _, _ => false
  end.

Lemma same_key_refl (a : float) : same_key a a = true.
Proof.
  unfold same_key. destruct (Prim2SF a) as [s | s | | s m e].
  - reflexivity.
  - apply Bool.eqb_reflx.
  - reflexivity.
  - now rewrite Bool.eqb_reflx, Pos.eqb_refl, Z.eqb_refl.
Qed.

End Binary64.

(** numpy's [float64] scalars. *)
#[export] Instance numpy_float64 : Arithmetic float := {|
  zero := 0%float;
  one := 1%float;
  add := PrimFloat.add;
  sub := PrimFloat.sub;
  mul := PrimFloat.mul;
  truediv := fun a b => Return (a / b)%float;
  truediv_int := fun a n => (a / Binary64.of_int n)%float;
  of_int := Binary64.of_int;
  rational := Binary64.rational;
  mod1 := Binary64.mod1;
  positive := fun a => (0 <? a)%float;
  truthy := fun a => negb (a =? 0)%float;
  equal := PrimFloat.eqb;
  same_key := Binary64.same_key;
  same_key_refl := Binary64.same_key_refl;
  truediv_positive := fun a b _ => ex_intro _ (a / b)%float eq_refl
|}.

(** Python's floats. *)
Definition python_float : Arithmetic float := {|
  zero := 0%float;
  one := 1%float;
  add := PrimFloat.add;
  sub := PrimFloat.sub;
  mul := PrimFloat.mul;
  truediv := Binary64.truediv;
  truediv_int := fun a n => (a / Binary64.of_int n)%float;
  of_int := Binary64.of_int;
  rational := Binary64.rational;
  mod1 := Binary64.mod1;
  positive := fun a => (0 <? a)%float;
  truthy := fun a => negb (a =? 0)%float;
  equal := PrimFloat.eqb;
  same_key := Binary64.same_key;
  same_key_refl := Binary64.same_key_refl;
  truediv_positive := Binary64.python_truediv_returns
|}.

(** ** Sequences and arrays *)

(** [l[k]] on a Python list, for a non-negative literal [k]. *)
Definition list_getitem {num A : Type} (l : list A) (k : nat) : outcome num A :=
  match nth_error l k with
  | Some a => Return a
  | None => Raise IndexError
  end.

Inductive ndarray (num : Type) : Type :=
| Array0 (v : num)
| Array1 (n : Z) (item : Z -> num)
| Array2 (n0 n1 : Z) (item : Z -> Z -> num).

Arguments Array0 {num} v.
Arguments Array1 {num} n item.
Arguments Array2 {num} n0 n1 item.

(** [len(a.shape)] *)
Definition rank {num : Type} (a : ndarray num) : nat :=
  match a with
  | Array0 _ => 0
  | Array1 _ _ => 1
  | Array2 _ _ _ => 2
  end.

(** numpy's rule for one index [k] on an axis of length [n]. *)
Definition axis_index {num : Type} (n k : Z) : outcome num Z :=
  if (0 <=? k) && (k <? n) then Return k
  else if (- n <=? k) && (k <? 0) then Return (k + n)
  else Raise IndexError.

(** [a[k]] on a rank-1 array. *)
Definition getitem1 {num : Type} (a : ndarray num) (k : Z) : outcome num num :=
  match a with
  | Array1 n f => k' <- axis_index n k ;; Return (f k')
  | _ => Raise IndexError
  end.

(** [a[i, j]] and [a[..., i, j]]: two indices need two axes. *)
Definition getitem2 {num : Type} (a : ndarray num) (i j : Z) : outcome num num :=
  match a with
  | Array2 n0 n1 f =>
      i' <- axis_index n0 i ;;
      j' <- axis_index n1 j ;;
      Return (f i' j')
  | _ => Raise IndexError
  end.

(** Python's rule for one bound of a slice on an axis of length [n]. *)
Definition slice_bound (n k : Z) : Z :=
  if k <? 0 then Z.max (k + n) 0 else Z.min k n.

(** [a[lo0:hi0, lo1:hi1]] and [a[..., lo0:hi0, lo1:hi1]]. *)
Definition slice2 {num : Type} (a : ndarray num) (r0 r1 : Z * Z)
  : outcome num (ndarray num) :=
  match a with
  | Array2 n0 n1 f =>
      let n0 := Z.max n0 0 in
      let n1 := Z.max n1 0 in
      let lo0 := slice_bound n0 (fst r0) in
      let hi0 := slice_bound n0 (snd r0) in
      let lo1 := slice_bound n1 (fst r1) in
      let hi1 := slice_bound n1 (snd r1) in
      Return (Array2 (Z.max (hi0 - lo0) 0) (Z.max (hi1 - lo1) 0)
                (fun i j => f (lo0 + i) (lo1 + j)))
  | _ => Raise IndexError
  end.

(** ** class Interpolator *)

Module Interpolator.

Record t (num : Type) : Type := mk {
  origin : list num;
  delta : list num;
  val : ndarray num;
  mask : option (ndarray num);
  (* cache points that need to be extrapolated: a dict keyed by x *)
  extrapolation_points : list ((num * num) * list (Z * Z))
}.

Arguments mk {num} origin delta val mask extrapolation_points.
Arguments origin {num} self : rename.
Arguments delta {num} self : rename.
Arguments val {num} self : rename.
Arguments mask {num} self : rename.
Arguments extrapolation_points {num} self : rename.

Section Methods.
Context {num : Type} {A : Arithmetic num}.

Definition __init__ (origin delta : list num) (val : ndarray num)
    (mask : option (ndarray num)) : t num :=
  mk origin delta val mask [].

Definition set_mask (self : t num) (mask : option (ndarray num)) : t num :=
  mk (origin self) (delta self) (val self) mask [].

(** Equality of two keys (tuples of floats). *)
Definition key_eqb (x y : num * num) : bool :=
  same_key (fst x) (fst y) && same_key (snd x) (snd y).

(** [d[x]] when [x in d]. *)
Fixpoint dict_get {V : Type} (d : list ((num * num) * V)) (x : num * num)
  : option V :=
  match d with
  | [] => None
  | (k, v) :: d' => if key_eqb x k then Some v else dict_get d' x
  end.

(** The candidates of the search, in the order of the source. *)
Definition neighbours (i j : Z) : list (Z * Z) :=
  [(i-1, j+1); (i-1, j); (i, j-1); (i+1, j-1);
   (i+2, j); (i+2, j+1); (i+1, j+2); (i, j+2)]  (* Neighbouring points *)
  ++ [(i-1, j-1); (i+2, j-1); (i+2, j+2); (i-1, j+2)].  (* Diagonal points *)

(** The loop over the candidates: [mask[a, b]] decides, an [IndexError]
    drops the candidate, any other exception leaves the loop. *)
Fixpoint collect (mask : ndarray num) (ijs : list (Z * Z))
  : outcome num (list (Z * Z)) :=
  match ijs with
  | [] => Return []
  | (a, b) :: rest =>
      match getitem2 mask a b with
      | Return m =>
          pts <- collect mask rest ;;
          Return (if truthy m then (a, b) :: pts else pts)
      | Raise IndexError => collect mask rest
      | Raise e => Raise e
      end
  end.

Definition find_extrapolation_points (self : t num) (x : num * num) (i j : Z)
  : outcome num (list (Z * Z)) * t num :=
  match dict_get (extrapolation_points self) x with
  | Some pts => (Return pts, self)
  | None =>
      let ijs := neighbours i j in
      match mask self with
      | None => (Raise (TypeError "'NoneType' object is not subscriptable"), self)
      | Some m =>
          match collect m ijs with
          | Raise e => (Raise e, self)
          | Return extrap_points =>
              if (Z.of_nat (List.length extrap_points) =? 0)
              then (Raise (CoordinateError
                             "Inside landmask - tried extrapolating but failed"
                             x i j), self)
              else (Return extrap_points,
                    mk (origin self) (delta self) (val self) (mask self)
                       ((x, extrap_points) :: extrapolation_points self))
          end
      end
  end.

(** [xhat], [yhat], [i] and [j], lines 58-61. *)
Definition grid_indices (self : t num) (x : num * num)
  : outcome num (num * num * Z * Z) :=
  o0 <- list_getitem (origin self) 0 ;;
  d0 <- list_getitem (delta self) 0 ;;
  xhat <- truediv (fst x - o0)%num d0 ;;
  o1 <- list_getitem (origin self) 1 ;;
  d1 <- list_getitem (delta self) 1 ;;
  yhat <- truediv (snd x - o1)%num d1 ;;
  i <- floor xhat ;;
  j <- floor yhat ;;
  Return (xhat, yhat, i, j).

(** [[self.val[..., a, b] for a, b in extrap_points]] *)
Fixpoint values_at (val : ndarray num) (pts : list (Z * Z))
  : outcome num (list num) :=
  match pts with
  | [] => Return []
  | (a, b) :: rest =>
      v <- getitem2 val a b ;;
      vs <- values_at val rest ;;
      Return (v :: vs)
  end.

(** [sum(l)] *)
Definition sum (l : list num) : num := fold_left add l zero.

(** [sum(l)/n] with [n = len(...)]: on an empty list it is the division
    [0/0] of two [int]. *)
Definition mean (l : list num) (n : Z) : outcome num num :=
  if n =? 0 then Raise ZeroDivisionError else Return (truediv_int (sum l) n).

(** The masked weights and the weighted value, lines 69-74. *)
Definition masked_sums (val m : ndarray num) (i j : Z) (alpha beta : num)
  : outcome num (num * num) :=
  m00 <- getitem2 m i j ;;
  let w00 := ((one - alpha) * (one - beta) * m00)%num in
  m10 <- getitem2 m (i+1) j ;;
  let w10 := (alpha * (one - beta) * m10)%num in
  m01 <- getitem2 m i (j+1) ;;
  let w01 := ((one - alpha) * beta * m01)%num in
  m11 <- getitem2 m (i+1) (j+1) ;;
  let w11 := (alpha * beta * m11)%num in
  v00 <- getitem2 val i j ;;
  v10 <- getitem2 val (i+1) j ;;
  v01 <- getitem2 val i (j+1) ;;
  v11 <- getitem2 val (i+1) (j+1) ;;
  let value := (w00 * v00 + w10 * v10 + w01 * v01 + w11 * v11)%num in
  let sumw := (w00 + w10 + w01 + w11)%num in
  Return (value, sumw).

(** The plain bilinear value, lines 85-86. *)
Definition bilinear (val : ndarray num) (i j : Z) (alpha beta : num)
  : outcome num num :=
  v00 <- getitem2 val i j ;;
  v10 <- getitem2 val (i+1) j ;;
  v01 <- getitem2 val i (j+1) ;;
  v11 <- getitem2 val (i+1) (j+1) ;;
  Return ((one - beta) * ((one - alpha) * v00 + alpha * v10)
          + beta * ((one - alpha) * v01 + alpha * v11))%num.

(** The body of the [try] block, lines 68-86. *)
Definition interpolate (self : t num) (x : num * num)
    (allow_extrapolation : bool) (i j : Z) (alpha beta : num)
  : outcome num num * t num :=
  match mask self with
  | Some m =>
      match masked_sums (val self) m i j alpha beta with
      | Raise e => (Raise e, self)
      | Return (value, sumw) =>
          if positive sumw then (truediv value sumw, self)
          else if allow_extrapolation then
            match find_extrapolation_points self x i j with
            | (Raise e, self') => (Raise e, self')
            | (Return extrap_points, self') =>
                (vs <- values_at (val self') extrap_points ;;
                 mean vs (Z.of_nat (List.length extrap_points)),
                 self')
            end
          else (Raise (CoordinateError "Probing point inside land mask" x i j),
                self)
      end
  | None => (bilinear (val self) i j alpha beta, self)
  end.

Definition get_val (self : t num) (x : num * num) (allow_extrapolation : bool)
  : outcome num num * t num :=
  match grid_indices self x with
  | Raise e => (Raise e, self)
  | Return (xhat, yhat, i, j) =>
      (* this is not catched as an IndexError below, because of wrapping
         of negative indices *)
      if (i <? 0) || (j <? 0)
      then (Raise (CoordinateError "Coordinate out of range" x i j), self)
      else
        let alpha := mod1 xhat in
        let beta := mod1 yhat in
        except_IndexError
          (interpolate self x allow_extrapolation i j alpha beta)
          (CoordinateError "Coordinate out of range" x i j)
  end.

End Methods.
End Interpolator.

(** ** class NetCDFInterpolator *)

(** What the reader uses of an open NetCDF file: the dimensions and the
    variables, both looked up by name. *)
Record NetCDFFile (num : Type) : Type := {
  dimensions : list (string * Z);
  variables : list (string * ndarray num)
}.

Arguments Build_NetCDFFile {num} dimensions variables.
Arguments dimensions {num} n : rename.
Arguments variables {num} n : rename.

(** [d[key]] on a dict with string keys. *)
Fixpoint dict_getitem {num V : Type} (d : list (string * V)) (key : string)
  : outcome num V :=
  match d with
  | [] => Raise (KeyError key)
  | (k, v) :: d' => if String.eqb key k then Return v else dict_getitem d' key
  end.

(** [key in d] *)
Definition dict_contains {V : Type} (d : list (string * V)) (key : string)
  : bool :=
  existsb (fun kv => String.eqb key (fst kv)) d.

(** An attribute of an object: assigned or not ([hasattr]). *)
Inductive attr (A : Type) : Type :=
| Missing
| Has (a : A).

Arguments Missing {A}.
Arguments Has {A} a.

(** [zip(a, b, c, d)] *)
Definition zip4 {A B C D : Type} (a : list A) (b : list B) (c : list C)
    (d : list D) : list (A * B * C * D) :=
  combine (combine (combine a b) c) d.

(** [a[ir[0][0]:ir[0][1], ir[1][0]:ir[1][1]]], with or without a leading
    ellipsis. *)
Definition window_slice {num : Type} (a : ndarray num) (ir : list (Z * Z))
  : outcome num (ndarray num) :=
  r0 <- list_getitem ir 0 ;;
  r1 <- list_getitem ir 1 ;;
  slice2 a r0 r1.

(** [numpy.where(val==fill_value, 0., 1.)] on a rank-2 array. *)
Definition where_not_fill {num : Type} {A : Arithmetic num} (val : ndarray num)
    (fill_value : num) : ndarray num :=
  match val with
  | Array2 n0 n1 f =>
      Array2 n0 n1 (fun i j => if equal (f i j) fill_value then zero else one)
  | _ => val
  end.

Module NetCDFInterpolator.

Record t (num : Type) : Type := mk {
  nc : NetCDFFile num;
  shape : list Z;
  origin : list num;
  delta : list num;
  iranges : option (list (Z * Z));
  mask : option (ndarray num);
  interpolator : attr (option (Interpolator.t num));
  val : attr (ndarray num);
  field_name : attr string
}.

Arguments mk {num} nc shape origin delta iranges mask interpolator val field_name.
Arguments nc {num} self : rename.
Arguments shape {num} self : rename.
Arguments origin {num} self : rename.
Arguments delta {num} self : rename.
Arguments iranges {num} self : rename.
Arguments mask {num} self : rename.
Arguments interpolator {num} self : rename.
Arguments val {num} self : rename.
Arguments field_name {num} self : rename.

(** The positional arguments of the constructor, in the two forms of the
    class documentation. *)
Inductive arguments (num : Type) : Type :=
| FromGrid (nci : t num)
| FromNames (dimensions coordinate_fields : list string).

Arguments FromGrid {num} nci.
Arguments FromNames {num} dimensions coordinate_fields.

Section Methods.
Context {num : Type} {A : Arithmetic num}.

(** One turn of the loop of lines 184-194: the length, the origin and the
    step of one axis. *)
Definition read_axis (nc : NetCDFFile num) (dimension field_name : string)
  : outcome num (Z * num * num) :=
  n <- dict_getitem (dimensions nc) dimension ;;
  val <- dict_getitem (variables nc) field_name ;;
  match rank val with
  | 1%nat =>
      o <- getitem1 val 0 ;;
      last <- getitem1 val (-1) ;;
      Return (n, o, truediv_int (last - o)%num (n - 1))
  | 2%nat =>
      o <- getitem2 val 0 0 ;;
      last <- getitem2 val (-1) (-1) ;;
      Return (n, o, truediv_int (last - o)%num (n - 1))
  | _ => Raise (NetCDFInterpolatorError "Unrecognized shape of coordinate field")
  end.

Fixpoint read_axes (nc : NetCDFFile num) (axes : list (string * string))
  : outcome num (list Z * list num * list num) :=
  match axes with
  | [] => Return ([], [], [])
  | (dimension, field_name) :: rest =>
      ' (n, o, d) <- read_axis nc dimension field_name ;;
      ' (shape, origin, delta) <- read_axes nc rest ;;
      Return (n :: shape, o :: origin, d :: delta)
  end.

(** Lines 164-199: the grid of the new object, before the keyword
    arguments are looked at. *)
Definition grid_setup (nc : NetCDFFile num) (args : arguments num)
  : outcome num (t num) :=
  match args with
  | FromGrid nci =>
      (* we copy the grid information of another netcdf interpolator *)
      Return (mk nc (shape nci) (origin nci) (delta nci) (iranges nci)
                 (mask nci) (Has None) Missing Missing)
  | FromNames dimensions coordinate_fields =>
      ' (shape, origin, delta) <-
          read_axes nc (combine dimensions coordinate_fields) ;;
      Return (mk nc shape origin delta None None (Has None) Missing Missing)
  end.

(** [imin] and [imax] of one axis, lines 218 and 225. *)
Definition axis_bounds (xlimits : num * num) (xmin : num) (xshape : Z)
    (deltax : num) : outcome num (Z * Z) :=
  q0 <- truediv (fst xlimits - xmin)%num deltax ;;
  k0 <- int q0 ;;
  (* for the min, take one off to avoid rounding issues *)
  let imin := Z.max (k0 - 1) 0 in
  q1 <- truediv (snd xlimits - xmin)%num deltax ;;
  k1 <- int q1 ;;
  let imax := Z.min (k1 + 3) xshape in
  Return (imin, imax).

(** The index range [imin:imax] of one axis, lines 216-227. *)
Definition axis_range (xlimits : num * num) (xmin : num) (xshape : Z)
    (deltax : num) : outcome num (Z * Z) :=
  ' (imin, imax) <- axis_bounds xlimits xmin xshape deltax ;;
  if imin >=? imax
  then Raise (NetCDFInterpolatorError "Provided ranges outside netCDF range")
  else Return (imin, imax).

(** The loop of lines 215-230.  The three lists are what has been appended
    to [self.iranges], [origin_new] and [shape_new] when the loop ends or is
    left by an exception. *)
Fixpoint range_loop (axes : list ((num * num) * num * Z * num))
  : outcome num unit * (list (Z * Z) * list num * list Z) :=
  match axes with
  | [] => (Return tt, ([], [], []))
  | (xlimits, xmin, xshape, deltax) :: rest =>
      match axis_range xlimits xmin xshape deltax with
      | Raise e => (Raise e, ([], [], []))
      | Return (imin, imax) =>
          let '(r, (ir, origin_new, shape_new)) := range_loop rest in
          (r, ((imin, imax) :: ir,
               (xmin + of_int imin * deltax)%num :: origin_new,
               (imax - imin) :: shape_new))
      end
  end.

Definition set_ranges (self : t num) (ranges : list (num * num))
  : outcome num unit * t num :=
  match iranges self with
  | Some _ =>
      (* this could probably be fixed, but requires thought and testing *)
      (Raise (NetCDFInterpolatorError "set_ranges() should only be called once!"),
       self)
  | None =>
      match range_loop (zip4 ranges (origin self) (shape self) (delta self)) with
      | (Raise e, (ir, _, _)) =>
          (Raise e,
           mk (nc self) (shape self) (origin self) (delta self) (Some ir)
              (mask self) (interpolator self) (val self) (field_name self))
      | (Return _, (ir, origin_new, shape_new)) =>
          let self1 :=
            mk (nc self) shape_new origin_new (delta self) (Some ir)
               (mask self) (interpolator self) (val self) (field_name self) in
          match
            match mask self1 with
            | Some m => m' <- window_slice m ir ;; Return (Some m')
            | None => Return None
            end
          with
          | Raise e => (Raise e, self1)
          | Return mask' =>
              let self2 :=
                mk (nc self1) (shape self1) (origin self1) (delta self1)
                   (iranges self1) mask' (interpolator self1) (val self1)
                   (field_name self1) in
              match interpolator self2 with
              | Missing =>
                  (Raise (AttributeError
                     "'NetCDFInterpolator' object has no attribute 'interpolator'"),
                   self2)
              | Has None => (Return tt, self2)
              | Has (Some _) =>
                  match val self2 with
                  | Missing =>
                      (Raise (AttributeError
                         "'NetCDFInterpolator' object has no attribute 'val'"),
                       self2)
                  | Has v =>
                      match window_slice v ir with
                      | Raise e => (Raise e, self2)
                      | Return v' =>
                          (Return tt,
                           mk (nc self2) (shape self2) (origin self2)
                              (delta self2) (iranges self2) (mask self2)
                              (Has (Some (Interpolator.__init__
                                            (origin self2) (delta self2) v'
                                            (mask self2))))
                              (Has v') (field_name self2))
                      end
                  end
              end
          end
      end
  end.

(** Calling the dict [kwargs] as a function, line 202. *)
Definition call_dict {V : Type} (kwargs : list (string * V)) (key : string)
  : outcome num V :=
  Raise (TypeError "'dict' object is not callable").

Definition __init__ (nc : NetCDFFile num) (args : arguments num)
    (kwargs : list (string * list (num * num))) : outcome num (t num) :=
  self <- grid_setup nc args ;;
  if dict_contains kwargs "ranges"
  then
    ranges <- call_dict kwargs "ranges" ;;
    match set_ranges self ranges with
    | (Raise e, _) => Raise e
    | (Return _, self') => Return self'
    end
  else Return self.

(** [self.interpolator.set_mask(self.mask)] when there is an interpolator. *)
Definition update_interpolator_mask (self : t num) : outcome num unit * t num :=
  match interpolator self with
  | Missing =>
      (Raise (AttributeError
         "'NetCDFInterpolator' object has no attribute 'interpolator'"), self)
  | Has None => (Return tt, self)
  | Has (Some ip) =>
      (Return tt,
       mk (nc self) (shape self) (origin self) (delta self) (iranges self)
          (mask self) (Has (Some (Interpolator.set_mask ip (mask self))))
          (val self) (field_name self))
  end.

(** [self.nc.variables[field_name]], windowed when a window is set. *)
Definition load (self : t num) (field_name : string) : outcome num (ndarray num) :=
  v <- dict_getitem (variables (nc self)) field_name ;;
  match iranges self with
  | None => Return v
  | Some ir => window_slice v ir
  end.

Definition set_mask (self : t num) (field_name : string)
  : outcome num unit * t num :=
  match load self field_name with
  | Raise e => (Raise e, self)
  | Return m =>
      update_interpolator_mask
        (mk (nc self) (shape self) (origin self) (delta self) (iranges self)
            (Some m) (interpolator self) (val self)
            (NetCDFInterpolator.field_name self))
  end.

(** The field is of rank 2 here, or of a rank that the source rejects: the
    rank 3 that it reduces to its first slice is not embedded. *)
Definition set_mask_from_fill_value (self : t num) (field_name : string)
    (fill_value : num) : outcome num unit * t num :=
  match load self field_name with
  | Raise e => (Raise e, self)
  | Return val =>
      match rank val with
      | 2%nat =>
          update_interpolator_mask
            (mk (nc self) (shape self) (origin self) (delta self)
                (iranges self) (Some (where_not_fill val fill_value))
                (interpolator self) (NetCDFInterpolator.val self)
                (NetCDFInterpolator.field_name self))
      | _ =>
          (Raise (NetCDFInterpolatorError
             "Field to extract mask from, should have 2 or 3 dimensions"), self)
      end
  end.

Definition set_field (self : t num) (field_name : string)
  : outcome num unit * t num :=
  let self1 :=
    mk (nc self) (shape self) (origin self) (delta self) (iranges self)
       (mask self) (interpolator self) (val self) (Has field_name) in
  match load self1 field_name with
  | Raise e => (Raise e, self1)
  | Return v =>
      (Return tt,
       mk (nc self1) (shape self1) (origin self1) (delta self1)
          (iranges self1) (mask self1)
          (Has (Some (Interpolator.__init__ (origin self1) (delta self1) v
                        (mask self1))))
          (Has v) (Has field_name))
  end.

Definition get_val (self : t num) (x : num * num) (allow_extrapolation : bool)
  : outcome num num * t num :=
  match interpolator self with
  | Missing =>
      (* not hasattr(self, "interpolator") *)
      (Raise (NetCDFInterpolatorError
         "Should call set_field() before calling get_val()!"), self)
  | Has None =>
      (Raise (AttributeError "'NoneType' object has no attribute 'get_val'"),
       self)
  | Has (Some ip) =>
      let '(r, ip') := Interpolator.get_val ip x allow_extrapolation in
      (r, mk (nc self) (shape self) (origin self) (delta self) (iranges self)
             (mask self) (Has (Some ip')) (val self) (field_name self))
  end.

End Methods.
End NetCDFInterpolator.

(** * Properties *)

(** ** Indexing *)

Section Indexing.
Context {num : Type}.

Lemma axis_index_inside (n k : Z) :
  0 <= k < n -> axis_index (num:=num) n k = Return k.
Proof.
  intros H. unfold axis_index.
  replace (0 <=? k) with true by (symmetry; apply Z.leb_le; lia).
  replace (k <? n) with true by (symmetry; apply Z.ltb_lt; lia).
  reflexivity.
Qed.

Lemma axis_index_beyond (n k : Z) :
  0 <= k -> n <= k -> axis_index (num:=num) n k = Raise IndexError.
Proof.
  intros H0 H1. unfold axis_index.
  replace (k <? n) with false by (symmetry; apply Z.ltb_ge; lia).
  replace (k <? 0) with false by (symmetry; apply Z.ltb_ge; lia).
  rewrite !andb_false_r. reflexivity.
Qed.

(** A negative index within [-n, 0) wraps around to the end of the axis. *)
Lemma axis_index_wraps (n k : Z) :
  - n <= k < 0 -> axis_index (num:=num) n k = Return (k + n).
Proof.
  intros H. unfold axis_index.
  replace (0 <=? k) with false by (symmetry; apply Z.leb_gt; lia).
  replace (- n <=? k) with true by (symmetry; apply Z.leb_le; lia).
  replace (k <? 0) with true by (symmetry; apply Z.ltb_lt; lia).
  reflexivity.
Qed.

Lemma axis_index_cases (n k : Z) :
  axis_index (num:=num) n k = Return k
  \/ axis_index (num:=num) n k = Return (k + n)
  \/ axis_index (num:=num) n k = Raise IndexError.
Proof.
  unfold axis_index.
  destruct ((0 <=? k) && (k <? n)); [now left|].
  destruct ((- n <=? k) && (k <? 0)); [right; now left | right; now right].
Qed.

Lemma getitem2_inside (n0 n1 : Z) (f : Z -> Z -> num) (i j : Z) :
  0 <= i < n0 -> 0 <= j < n1 -> getitem2 (Array2 n0 n1 f) i j = Return (f i j).
Proof.
  intros Hi Hj. simpl.
  now rewrite (axis_index_inside _ _ Hi), (axis_index_inside _ _ Hj).
Qed.

(** [getitem2] raises nothing but [IndexError]. *)
Lemma getitem2_raises (a : ndarray num) (i j : Z) (e : exn num) :
  getitem2 a i j = Raise e -> e = IndexError.
Proof.
  destruct a as [v | n g | n0 n1 g]; simpl; try congruence.
  destruct (axis_index_cases n0 i) as [-> | [-> | ->]];
    destruct (axis_index_cases n1 j) as [-> | [-> | ->]]; simpl; congruence.
Qed.

Lemma getitem2_nonneg (n0 n1 : Z) (f : Z -> Z -> num) (i j : Z) :
  0 <= i -> 0 <= j ->
  getitem2 (Array2 n0 n1 f) i j =
  if (i <? n0) && (j <? n1) then Return (f i j) else Raise IndexError.
Proof.
  intros Hi Hj. simpl.
  destruct (i <? n0) eqn:Ei.
  - apply Z.ltb_lt in Ei. rewrite axis_index_inside by lia. simpl.
    destruct (j <? n1) eqn:Ej.
    + apply Z.ltb_lt in Ej. now rewrite axis_index_inside by lia.
    + apply Z.ltb_ge in Ej. now rewrite axis_index_beyond by lia.
  - apply Z.ltb_ge in Ei. now rewrite axis_index_beyond by lia.
Qed.

End Indexing.

(** The four corners of the cell [(i, j)] are inside a grid of shape
    [(n0, n1)]. *)
Definition corners_inside (n0 n1 i j : Z) : Prop :=
  0 <= i /\ i + 1 < n0 /\ 0 <= j /\ j + 1 < n1.

Definition corners_insideb (n0 n1 i j : Z) : bool :=
  (0 <=? i) && (i + 1 <? n0) && (0 <=? j) && (j + 1 <? n1).

Lemma corners_insideb_spec (n0 n1 i j : Z) :
  corners_insideb n0 n1 i j = true <-> corners_inside n0 n1 i j.
Proof.
  unfold corners_insideb, corners_inside.
  rewrite !andb_true_iff, !Z.leb_le, !Z.ltb_lt. tauto.
Qed.

(** ** Rounding to an integer *)

(** [truncate] is the floor on non-negative numbers ... *)
Lemma truncate_nonneg (x : Q) : (0 <= x)%Q -> truncate x = Qfloor x.
Proof.
  destruct x as [n d]. unfold Qle, truncate, Qfloor. simpl. intros H.
  apply Z.quot_div_nonneg; lia.
Qed.

(** ... and is never positive on negative ones, where the floor is
    negative. *)
Lemma truncate_negative (x : Q) : (x < 0)%Q -> truncate x <= 0 /\ Qfloor x < 0.
Proof.
  destruct x as [n d]. unfold Qlt, truncate, Qfloor. simpl. intros H.
  split.
  - assert (E : n = - (- n)) by lia. rewrite E, Z.quot_opp_l by lia.
    pose proof (Z.quot_pos (- n) (Z.pos d)). lia.
  - apply Z.div_lt_upper_bound; lia.
Qed.

(** The lower clamp hides the difference. *)
Lemma truncate_floor_lower (x : Q) :
  Z.max (truncate x - 1) 0 = Z.max (Qfloor x - 1) 0.
Proof.
  destruct (Qlt_le_dec x 0) as [H | H].
  - destruct (truncate_negative x H). lia.
  - now rewrite truncate_nonneg.
Qed.

(** [int] and [math.floor] fail on the same numbers, and agree under the
    lower clamp. *)
Lemma int_floor_lower {num : Type} {A : Arithmetic num} (x : num) (k : Z) :
  int x = Return k ->
  exists m, floor x = Return m /\ Z.max (k - 1) 0 = Z.max (m - 1) 0.
Proof.
  unfold int, floor. destruct (rational x) as [q | e]; simpl; [|discriminate].
  intros H. injection H as <-. eexists. split; [reflexivity|].
  apply truncate_floor_lower.
Qed.

(** ** The interpolator on a grid *)

Module InterpolatorFacts.
Import Interpolator.

Section Generic.
Context {num : Type} {A : Arithmetic num}.

(** The bilinear weights at [(alpha, beta)] applied to four corner values,
    as line 85-86 computes them. *)
Definition blend (alpha beta v00 v10 v01 v11 : num) : num :=
  ((one - beta) * ((one - alpha) * v00 + alpha * v10)
   + beta * ((one - alpha) * v01 + alpha * v11))%num.

Lemma bilinear_spec (n0 n1 : Z) (f : Z -> Z -> num) (i j : Z) (alpha beta : num) :
  0 <= i -> 0 <= j ->
  bilinear (Array2 n0 n1 f) i j alpha beta =
  if corners_insideb n0 n1 i j
  then Return (blend alpha beta (f i j) (f (i+1) j) (f i (j+1)) (f (i+1) (j+1)))
  else Raise IndexError.
Proof.
  intros Hi Hj. unfold bilinear, corners_insideb.
  rewrite !getitem2_nonneg by lia.
  replace (0 <=? i) with true by (symmetry; apply Z.leb_le; lia).
  replace (0 <=? j) with true by (symmetry; apply Z.leb_le; lia).
  destruct (i <? n0) eqn:E1, (j <? n1) eqn:E2, (i + 1 <? n0) eqn:E3,
    (j + 1 <? n1) eqn:E4; simpl; try reflexivity;
    rewrite ?Z.ltb_lt, ?Z.ltb_ge in *; lia.
Qed.

(** The mask-weighted sum of the four corner values and the sum of the
    mask-weighted weights, as lines 69-74 compute them. *)
Definition weighted_value (f g : Z -> Z -> num) (i j : Z) (alpha beta : num)
  : num :=
  ((one - alpha) * (one - beta) * g i j * f i j
   + alpha * (one - beta) * g (i+1)%Z j * f (i+1)%Z j
   + (one - alpha) * beta * g i (j+1)%Z * f i (j+1)%Z
   + alpha * beta * g (i+1)%Z (j+1)%Z * f (i+1)%Z (j+1)%Z)%num.

Definition weight_sum (g : Z -> Z -> num) (i j : Z) (alpha beta : num) : num :=
  ((one - alpha) * (one - beta) * g i j
   + alpha * (one - beta) * g (i+1)%Z j
   + (one - alpha) * beta * g i (j+1)%Z
   + alpha * beta * g (i+1)%Z (j+1)%Z)%num.

Lemma masked_sums_spec (n0 n1 : Z) (f g : Z -> Z -> num) (i j : Z)
    (alpha beta : num) :
  0 <= i -> 0 <= j ->
  masked_sums (Array2 n0 n1 f) (Array2 n0 n1 g) i j alpha beta =
  if corners_insideb n0 n1 i j
  then Return (weighted_value f g i j alpha beta, weight_sum g i j alpha beta)
  else Raise IndexError.
Proof.
  intros Hi Hj. unfold masked_sums, corners_insideb.
  rewrite !getitem2_nonneg by lia.
  replace (0 <=? i) with true by (symmetry; apply Z.leb_le; lia).
  replace (0 <=? j) with true by (symmetry; apply Z.leb_le; lia).
  destruct (i <? n0) eqn:E1, (j <? n1) eqn:E2, (i + 1 <? n0) eqn:E3,
    (j + 1 <? n1) eqn:E4; simpl; try reflexivity;
    rewrite ?Z.ltb_lt, ?Z.ltb_ge in *; lia.
Qed.

Section OnAGrid.

Variables (n0 n1 : Z) (f : Z -> Z -> num).

(** An interpolator on a field of rank 2, with any mask and any cache, and
    a point for which lines 58-61 give [xhat], [yhat], [i] and [j]. *)
Variable self : t num.
Hypothesis self_val : val self = Array2 n0 n1 f.

Variables (x : num * num) (xhat yhat : num) (i j : Z).
Hypothesis indices : grid_indices self x = Return (xhat, yhat, i, j).

(** [get_val] after lines 58-66. *)
Lemma get_val_unfold (allow_extrapolation : bool) :
  get_val self x allow_extrapolation =
  if (i <? 0) || (j <? 0)
  then (Raise (CoordinateError "Coordinate out of range" x i j), self)
  else except_IndexError
         (interpolate self x allow_extrapolation i j (mod1 xhat) (mod1 yhat))
         (CoordinateError "Coordinate out of range" x i j).
Proof.
  unfold get_val. rewrite indices. reflexivity.
Qed.

Lemma get_val_negative (allow_extrapolation : bool) :
  i < 0 \/ j < 0 ->
  get_val self x allow_extrapolation =
  (Raise (CoordinateError "Coordinate out of range" x i j), self).
Proof.
  intros H. rewrite get_val_unfold.
  replace ((i <? 0) || (j <? 0)) with true; [reflexivity|].
  symmetry. apply orb_true_iff. rewrite !Z.ltb_lt. exact H.
Qed.

Lemma nonneg_test : 0 <= i -> 0 <= j -> (i <? 0) || (j <? 0) = false.
Proof.
  intros Hi Hj. apply orb_false_iff. rewrite !Z.ltb_ge. lia.
Qed.

(** Without a mask. *)
Lemma get_val_unmasked (allow_extrapolation : bool) :
  mask self = None -> corners_inside n0 n1 i j ->
  get_val self x allow_extrapolation =
  (Return (blend (mod1 xhat) (mod1 yhat)
             (f i j) (f (i+1) j) (f i (j+1)) (f (i+1) (j+1))), self).
Proof.
  intros Hm Hin. pose proof Hin as (Hi & _ & Hj & _).
  rewrite get_val_unfold, nonneg_test by assumption.
  unfold interpolate. rewrite Hm, self_val, bilinear_spec by assumption.
  apply corners_insideb_spec in Hin. rewrite Hin. reflexivity.
Qed.

Lemma get_val_unmasked_outside (allow_extrapolation : bool) :
  mask self = None -> ~ corners_inside n0 n1 i j ->
  get_val self x allow_extrapolation =
  (Raise (CoordinateError "Coordinate out of range" x i j), self).
Proof.
  intros Hm Hout.
  destruct (Z_lt_dec i 0) as [Hi | Hi]; [apply get_val_negative; now left|].
  destruct (Z_lt_dec j 0) as [Hj | Hj]; [apply get_val_negative; now right|].
  rewrite get_val_unfold, nonneg_test by lia.
  unfold interpolate. rewrite Hm, self_val, bilinear_spec by lia.
  destruct (corners_insideb n0 n1 i j) eqn:E.
  - apply corners_insideb_spec in E. contradiction.
  - reflexivity.
Qed.

(** With a mask of the shape of the field. *)
Variable g : Z -> Z -> num.
Hypothesis self_mask : mask self = Some (Array2 n0 n1 g).

Let alpha : num := mod1 xhat.
Let beta : num := mod1 yhat.
Let sumw : num := weight_sum g i j alpha beta.
Let value : num := weighted_value f g i j alpha beta.

Lemma get_val_masked_outside (allow_extrapolation : bool) :
  ~ corners_inside n0 n1 i j ->
  get_val self x allow_extrapolation =
  (Raise (CoordinateError "Coordinate out of range" x i j), self).
Proof.
  intros Hout.
  destruct (Z_lt_dec i 0) as [Hi | Hi]; [apply get_val_negative; now left|].
  destruct (Z_lt_dec j 0) as [Hj | Hj]; [apply get_val_negative; now right|].
  rewrite get_val_unfold, nonneg_test by lia.
  unfold interpolate. rewrite self_mask, self_val, masked_sums_spec by lia.
  destruct (corners_insideb n0 n1 i j) eqn:E.
  - apply corners_insideb_spec in E. contradiction.
  - reflexivity.
Qed.

(** The body of the [try] once the four corners are read. *)
Lemma get_val_masked (allow_extrapolation : bool) :
  corners_inside n0 n1 i j ->
  get_val self x allow_extrapolation =
  except_IndexError
    (if positive sumw then (truediv value sumw, self)
     else if allow_extrapolation then
       match find_extrapolation_points self x i j with
       | (Raise e, self') => (Raise e, self')
       | (Return extrap_points, self') =>
           (vs <- values_at (val self') extrap_points ;;
            mean vs (Z.of_nat (List.length extrap_points)),
            self')
       end
     else (Raise (CoordinateError "Probing point inside land mask" x i j), self))
    (CoordinateError "Coordinate out of range" x i j).
Proof.
  intros Hin. pose proof Hin as (Hi & _ & Hj & _).
  rewrite get_val_unfold, nonneg_test by assumption.
  unfold interpolate. rewrite self_mask, self_val, masked_sums_spec by assumption.
  apply corners_insideb_spec in Hin. rewrite Hin. reflexivity.
Qed.

Lemma get_val_masked_positive (allow_extrapolation : bool) :
  corners_inside n0 n1 i j -> positive sumw = true ->
  exists v, truediv value sumw = Return v
            /\ get_val self x allow_extrapolation = (Return v, self).
Proof.
  intros Hin Hpos. rewrite get_val_masked by assumption.
  rewrite Hpos. destruct (truediv_positive value sumw Hpos) as [v Hv].
  exists v. split; [exact Hv|]. rewrite Hv. reflexivity.
Qed.

Lemma get_val_masked_land :
  corners_inside n0 n1 i j -> positive sumw = false ->
  get_val self x false =
  (Raise (CoordinateError "Probing point inside land mask" x i j), self).
Proof.
  intros Hin Hle. rewrite get_val_masked by assumption.
  rewrite Hle. reflexivity.
Qed.

End OnAGrid.
End Generic.
End InterpolatorFacts.

(** ** The worked examples, in binary64 *)

(** The grid of the worked examples: origin (0,0), delta (1,1), shape (4,4),
    field [val[i,j] = i + j]. *)
Definition example_field : ndarray float :=
  Array2 4 4 (fun i j => Binary64.of_int (i + j)).

Definition example_interpolator (mask : option (ndarray float))
  : Interpolator.t float :=
  Interpolator.__init__ [0%float; 0%float] [1%float; 1%float] example_field mask.

(** The coordinate [k/4]; a multiple of 1/4 is a binary64 number. *)
Definition quarter (k : Z) : float := (Binary64.of_int k / 4)%float.

(** The integers [0 <= k < 12] are those of a list. *)
Lemma below_12 (k : Z) :
  0 <= k < 12 -> In k [0; 1; 2; 3; 4; 5; 6; 7; 8; 9; 10; 11].
Proof.
  intros H. simpl.
  assert (E : k = 0 \/ k = 1 \/ k = 2 \/ k = 3 \/ k = 4 \/ k = 5 \/ k = 6
              \/ k = 7 \/ k = 8 \/ k = 9 \/ k = 10 \/ k = 11) by lia.
  intuition auto.
Qed.

(** ** Interpolation without a mask *)

(** C1 as the specification has it: at the coordinate of every interior
    node the value of the node; for a field linear in the coordinates its
    value at every interior point; and 3.0 in the example. *)
Definition get_val_exact_at_nodes_and_on_linear_fields : Prop :=
  (forall (x0 y0 dx dy : float) (nx ny : Z) (f : Z -> Z -> float)
          (allow_extrapolation : bool) (i j : Z),
      positive dx = true -> positive dy = true ->
      0 <= i < nx - 1 -> 0 <= j < ny - 1 ->
      exists v : float,
        fst (Interpolator.get_val
               (Interpolator.__init__ [x0; y0] [dx; dy] (Array2 nx ny f) None)
               (x0 + of_int i * dx, y0 + of_int j * dy)%num
               allow_extrapolation) = Return v
        /\ equal v (f i j) = true)
  /\
  (forall (x0 y0 dx dy : float) (nx ny : Z) (a b c : float)
          (allow_extrapolation : bool) (x : float * float)
          (xhat yhat : float) (i j : Z),
      let self :=
        Interpolator.__init__ [x0; y0] [dx; dy]
          (Array2 nx ny
             (fun i j => a + b * (x0 + of_int i * dx)
                         + c * (y0 + of_int j * dy))%num) None in
      positive dx = true -> positive dy = true ->
      Interpolator.grid_indices self x = Return (xhat, yhat, i, j) ->
      corners_inside nx ny i j ->
      exists v : float,
        fst (Interpolator.get_val self x allow_extrapolation) = Return v
        /\ equal v (a + b * fst x + c * snd x)%num = true)
  /\
  fst (Interpolator.get_val (example_interpolator None)
         (1.5, 1.5)%float false) = Return 3%float.




(** ** Interpolation with a mask *)

(** The mask has the value [v] at the four corners of the cell [(i, j)]. *)
Definition corners_are {num : Type} (g : Z -> Z -> num) (i j : Z) (v : num)
  : Prop :=
  g i j = v /\ g (i+1) j = v /\ g i (j+1) = v /\ g (i+1) (j+1) = v.

(** Two outcomes that are identical: the same exception, or numbers that
    are [==]. *)
Definition identical {num : Type} {A : Arithmetic num}
    (r1 r2 : outcome num num) : Prop :=
  match r1, r2 with
  | Return v1, Return v2 => equal v1 v2 = true
  | Raise e1, Raise e2 => e1 = e2
  | _, _ => False
  end.

(** The mask of the shape of the example grid that is 1.0 everywhere. *)
Definition sea_mask : ndarray float := Array2 4 4 (fun _ _ => 1%float).

Module Masked.
Import Interpolator InterpolatorFacts.

Section Generic.
Context {num : Type} {A : Arithmetic num}.

(** Lines 58-61 read the origin and the step only. *)
Lemma grid_indices_same (s1 s2 : t num) (x : num * num) :
  origin s1 = origin s2 -> delta s1 = delta s2 ->
  grid_indices s1 x = grid_indices s2 x.
Proof.
  intros Ho Hd. unfold grid_indices. now rewrite Ho, Hd.
Qed.

Lemma weight_sum_corners (g g' : Z -> Z -> num) (i j : Z) (alpha beta : num) :
  g i j = g' i j -> g (i+1) j = g' (i+1) j -> g i (j+1) = g' i (j+1) ->
  g (i+1) (j+1) = g' (i+1) (j+1) ->
  weight_sum g i j alpha beta = weight_sum g' i j alpha beta.
Proof.
  intros H00 H10 H01 H11. unfold weight_sum. now rewrite H00, H10, H01, H11.
Qed.

Lemma weighted_value_corners (f g g' : Z -> Z -> num) (i j : Z)
    (alpha beta : num) :
  g i j = g' i j -> g (i+1) j = g' (i+1) j -> g i (j+1) = g' i (j+1) ->
  g (i+1) (j+1) = g' (i+1) (j+1) ->
  weighted_value f g i j alpha beta = weighted_value f g' i j alpha beta.
Proof.
  intros H00 H10 H01 H11. unfold weighted_value.
  now rewrite H00, H10, H01, H11.
Qed.

End Generic.
End Masked.

(** C3 as the specification has it: where the four corners are inside the
    grid and their mask values are all 1.0, the result with the mask is
    identical to the result without it. *)
Definition masked_result_identical_to_unmasked : Prop :=
  forall (x0 y0 dx dy : float) (nx ny : Z) (f g : Z -> Z -> float)
         (allow_extrapolation : bool) (x : float * float)
         (xhat yhat : float) (i j : Z),
    let masked :=
      Interpolator.__init__ [x0; y0] [dx; dy] (Array2 nx ny f)
        (Some (Array2 nx ny g)) in
    let unmasked :=
      Interpolator.__init__ [x0; y0] [dx; dy] (Array2 nx ny f) None in
    Interpolator.grid_indices unmasked x = Return (xhat, yhat, i, j) ->
    corners_inside nx ny i j ->
    corners_are g i j 1%float ->
    identical
      (fst (Interpolator.get_val masked x allow_extrapolation))
      (fst (Interpolator.get_val unmasked x allow_extrapolation)).




(** A mask of the shape of the example grid with no valid point. *)
Definition land_mask : ndarray float := Array2 4 4 (fun _ _ => 0%float).

(** The mask of the example: zero everywhere except [mask[0,0] = 1]. *)
Definition corner_mask : ndarray float :=
  Array2 4 4 (fun i j => if (i =? 0) && (j =? 0) then 1%float else 0%float).

(** C4 as the specification has it: a coordinate error exactly when an
    index is negative or a corner is at or beyond the far boundary, with
    and without a mask. *)
Definition coordinate_error_exactly_when_outside : Prop :=
  forall (nx ny : Z) (f : Z -> Z -> float) (self : Interpolator.t float)
         (allow_extrapolation : bool) (x : float * float)
         (xhat yhat : float) (i j : Z),
    Interpolator.val self = Array2 nx ny f ->
    (Interpolator.mask self = None
     \/ exists g, Interpolator.mask self = Some (Array2 nx ny g)) ->
    Interpolator.grid_indices self x = Return (xhat, yhat, i, j) ->
    (exists message,
        fst (Interpolator.get_val self x allow_extrapolation)
        = Raise (CoordinateError message x i j))
    <-> ~ corners_inside nx ny i j.

(** Inside a fully masked cell the call fails although every index is in
    range. *)
Lemma coordinate_error_inside_land :
  ~ coordinate_error_exactly_when_outside.
Proof.
  intros spec.
  assert (H : ~ corners_inside 4 4 0 0).
  { apply (spec 4 4 (fun i j => Binary64.of_int (i + j))
             (example_interpolator (Some land_mask)) false (0.5, 0.5)%float
             0.5%float 0.5%float 0 0 eq_refl
             (or_intror (ex_intro _ (fun _ _ => 0%float) eq_refl)) eq_refl).
    eexists. vm_compute. reflexivity. }
  apply H. unfold corners_inside. lia.
Qed.

(** C4, amended.  Let [i] and [j] be the indices that lines 58-61 compute
    for the point (the floors of the two quotients, when these are
    computed).  [get_val] fails with the coordinate error "Coordinate out
    of range", carrying the coordinate and [i], [j], whenever [i] or [j] is
    negative or one of the four corners is at or beyond the far boundary,
    with and without a mask.  Without a mask it returns a value in every
    other case.  With a mask and all corners in range it returns a value
    when the sum of the masked weights is above zero, and fails with the
    coordinate error "Probing point inside land mask" when that sum is not
    above zero and extrapolation is not allowed. *)
Theorem get_val_coordinate_error :
  forall (num : Type) (A : Arithmetic num) (nx ny : Z) (f : Z -> Z -> num)
         (self : Interpolator.t num) (allow_extrapolation : bool)
         (x : num * num) (xhat yhat : num) (i j : Z),
    Interpolator.val self = Array2 nx ny f ->
    (Interpolator.mask self = None
     \/ exists g, Interpolator.mask self = Some (Array2 nx ny g)) ->
    Interpolator.grid_indices self x = Return (xhat, yhat, i, j) ->
    let alpha := mod1 xhat in
    let beta := mod1 yhat in
    (~ corners_inside nx ny i j ->
     fst (Interpolator.get_val self x allow_extrapolation)
     = Raise (CoordinateError "Coordinate out of range" x i j))
    /\ (Interpolator.mask self = None -> corners_inside nx ny i j ->
        exists v, fst (Interpolator.get_val self x allow_extrapolation)
                  = Return v)
    /\ (forall g, Interpolator.mask self = Some (Array2 nx ny g) ->
        corners_inside nx ny i j ->
        (positive (InterpolatorFacts.weight_sum g i j alpha beta) = true ->
         exists v, fst (Interpolator.get_val self x allow_extrapolation)
                   = Return v)
        /\ (positive (InterpolatorFacts.weight_sum g i j alpha beta) = false ->
            allow_extrapolation = false ->
            fst (Interpolator.get_val self x allow_extrapolation)
            = Raise (CoordinateError "Probing point inside land mask" x i j))).
Proof.
  intros num A nx ny f self allow x xhat yhat i j Hv Hmask Hidx alpha beta.
  split; [|split].
  - intros Hout. destruct Hmask as [Hm | [g Hm]].
    + now rewrite (InterpolatorFacts.get_val_unmasked_outside
                     nx ny f self Hv x xhat yhat i j Hidx allow Hm Hout).
    + now rewrite (InterpolatorFacts.get_val_masked_outside
                     nx ny f self Hv x xhat yhat i j Hidx g Hm allow Hout).
  - intros Hm Hin. eexists.
    now rewrite (InterpolatorFacts.get_val_unmasked
                   nx ny f self Hv x xhat yhat i j Hidx allow Hm Hin).
  - intros g Hm Hin. split.
    + intros Hpos.
      destruct (InterpolatorFacts.get_val_masked_positive
                  nx ny f self Hv x xhat yhat i j Hidx g Hm allow Hin Hpos)
        as (v & _ & Hr).
      exists v. now rewrite Hr.
    + intros Hle ->.
      now rewrite (InterpolatorFacts.get_val_masked_land
                     nx ny f self Hv x xhat yhat i j Hidx g Hm Hin Hle).
Qed.

Lemma get_val_coordinate_error_witness :
  fst (Interpolator.get_val (example_interpolator (Some land_mask))
         (3.5, 0.5)%float false)
  = Raise (CoordinateError "Coordinate out of range" (3.5, 0.5)%float 3 0).
Proof.
  apply (proj1 (get_val_coordinate_error float numpy_float64 4 4
                  (fun i j => Binary64.of_int (i + j))
                  (example_interpolator (Some land_mask)) false
                  (3.5, 0.5)%float 3.5%float 0.5%float 3 0 eq_refl
                  (or_intror (ex_intro _ (fun _ _ => 0%float) eq_refl))
                  eq_refl)).
  unfold corners_inside. lia.
Defined.

(** C7 as the specification has it: at (0.5, 0.5) under [corner_mask] the
    call fails without extrapolation and returns [val[0,0]] with it. *)
Definition single_valid_corner_fails_without_extrapolation : Prop :=
  forall f : Z -> Z -> float,
    let self :=
      Interpolator.__init__ [0%float; 0%float] [1%float; 1%float]
        (Array2 4 4 f) (Some corner_mask) in
    (exists message i j,
        fst (Interpolator.get_val self (0.5, 0.5)%float false)
        = Raise (CoordinateError message (0.5, 0.5)%float i j))
    /\ (exists v,
           fst (Interpolator.get_val self (0.5, 0.5)%float true) = Return v
           /\ equal v (f 0 0) = true).

(** The corner (0,0) is valid and has the weight 1/4: the call returns a
    value without extrapolation too. *)
Lemma single_valid_corner_returns :
  ~ single_valid_corner_fails_without_extrapolation.
Proof.
  intros spec.
  destruct (spec (fun i j => Binary64.of_int (i + j)))
    as [(message & i & j & H) _].
  vm_compute in H. discriminate H.
Qed.

(** C7, amended.  On the example grid with the mask that is zero everywhere
    except [mask[0,0] = 1], [get_val((0.5, 0.5))] returns, whether
    extrapolation is allowed or not and whatever the field, the weighted
    sum [0.25*val[0,0] + 0*val[1,0] + 0*val[0,1] + 0*val[1,1]] divided by
    the sum 0.25 of the weights: no failure and no extrapolation.  For the
    field [val[i,j] = i + j] of the example this is [val[0,0]]. *)
Theorem get_val_single_valid_corner :
  (forall (f : Z -> Z -> float) (allow_extrapolation : bool),
      fst (Interpolator.get_val
             (Interpolator.__init__ [0%float; 0%float] [1%float; 1%float]
                (Array2 4 4 f) (Some corner_mask))
             (0.5, 0.5)%float allow_extrapolation)
      = Return ((0.25 * f 0%Z 0%Z + 0 * f 1%Z 0%Z + 0 * f 0%Z 1%Z
                 + 0 * f 1%Z 1%Z) / 0.25)%float)
  /\
  (forall allow_extrapolation : bool,
      fst (Interpolator.get_val (example_interpolator (Some corner_mask))
             (0.5, 0.5)%float allow_extrapolation)
      = getitem2 example_field 0 0).
Proof.
  split.
  - intros f allow.
    set (g := fun i j : Z => if (i =? 0) && (j =? 0) then 1%float else 0%float).
    set (self := Interpolator.__init__ _ _ _ _).
    assert (Hin : corners_inside 4 4 0 0) by (unfold corners_inside; lia).
    assert (Hidx : Interpolator.grid_indices self (0.5, 0.5)%float
                   = Return (0.5%float, 0.5%float, 0, 0)) by reflexivity.
    destruct (InterpolatorFacts.get_val_masked_positive 4 4 f self eq_refl
                (0.5, 0.5)%float 0.5%float 0.5%float 0 0 Hidx g eq_refl
                allow Hin eq_refl) as (v & Hq & Hr).
    rewrite Hr. cbn [fst]. rewrite <- Hq. reflexivity.
  - intros [|]; vm_compute; reflexivity.
Qed.

(** ** The extrapolation search *)

(** A candidate is usable when it lies inside the array and its mask value
    is nonzero. *)
Definition valid_point {num : Type} {A : Arithmetic num} (n0 n1 : Z)
    (g : Z -> Z -> num) (p : Z * Z) : bool :=
  (0 <=? fst p) && (fst p <? n0) && (0 <=? snd p) && (snd p <? n1)
  && truthy (g (fst p) (snd p)).

Module Extrapolation.
Import Interpolator InterpolatorFacts.

Section Generic.
Context {num : Type} {A : Arithmetic num}.

(** The search never raises: a candidate that cannot be read is dropped. *)
Lemma collect_returns (m : ndarray num) (ijs : list (Z * Z)) :
  exists pts, collect m ijs = Return pts.
Proof.
  induction ijs as [| [a b] rest [pts IH]]; simpl.
  - eexists; reflexivity.
  - destruct (getitem2 m a b) as [v | e] eqn:E.
    + rewrite IH. simpl. eexists; reflexivity.
    + rewrite (getitem2_raises _ _ _ _ E). exists pts. exact IH.
Qed.

(** Every point found is a candidate, in the order of the candidates, whose
    mask value as numpy reads it is nonzero. *)
Lemma collect_sound (m : ndarray num) (ijs pts : list (Z * Z)) :
  collect m ijs = Return pts ->
  forall p, In p pts ->
    In p ijs
    /\ exists v, getitem2 m (fst p) (snd p) = Return v /\ truthy v = true.
Proof.
  revert pts. induction ijs as [| [a b] rest IH]; simpl; intros pts H p Hp.
  - injection H as <-. contradiction.
  - destruct (getitem2 m a b) as [v | e] eqn:E.
    + destruct (collect m rest) as [pts' | e'] eqn:E'; simpl in H; [|discriminate].
      injection H as <-. destruct (truthy v) eqn:Ev.
      * destruct Hp as [<- | Hp].
        -- split; [now left | exists v; now split].
        -- destruct (IH _ eq_refl p Hp) as [Hin Hv]. split; [now right | exact Hv].
      * destruct (IH _ eq_refl p Hp) as [Hin Hv]. split; [now right | exact Hv].
    + rewrite (getitem2_raises _ _ _ _ E) in H.
      destruct (IH _ H p Hp) as [Hin Hv]. split; [now right | exact Hv].
Qed.

(** On candidates without a negative index the search keeps exactly the
    usable ones. *)
Lemma collect_nonneg (n0 n1 : Z) (g : Z -> Z -> num) (ijs : list (Z * Z)) :
  Forall (fun p => 0 <= fst p /\ 0 <= snd p) ijs ->
  collect (Array2 n0 n1 g) ijs = Return (filter (valid_point n0 n1 g) ijs).
Proof.
  induction 1 as [| [a b] rest [Ha Hb] _ IH].
  - reflexivity.
  - cbn [collect filter]. cbn [fst snd] in Ha, Hb.
    rewrite getitem2_nonneg, IH by assumption.
    assert (E : valid_point n0 n1 g (a, b)
                = (a <? n0) && (b <? n1) && truthy (g a b)).
    { unfold valid_point. cbn [fst snd].
      replace (0 <=? a) with true by (symmetry; apply Z.leb_le; lia).
      replace (0 <=? b) with true by (symmetry; apply Z.leb_le; lia).
      now rewrite andb_true_l, andb_true_r. }
    rewrite E.
    destruct (a <? n0), (b <? n1); simpl; try reflexivity.
Qed.

(** A candidate with a negative index within the length of its axis is
    not dropped: the mask is read at the wrapped position, and the
    candidate is kept when the value found there is nonzero. *)
Lemma collect_keeps_wrapped (n0 n1 : Z) (g : Z -> Z -> num) (a b : Z)
    (rest : list (Z * Z)) :
  - n0 <= a < 0 -> 0 <= b < n1 -> truthy (g (a + n0) b) = true ->
  exists pts, collect (Array2 n0 n1 g) ((a, b) :: rest) = Return ((a, b) :: pts).
Proof.
  intros Ha Hb Hv. destruct (collect_returns (Array2 n0 n1 g) rest) as [pts H].
  exists pts. cbn [collect getitem2].
  rewrite (axis_index_wraps _ _ Ha), (axis_index_inside _ _ Hb). cbn [bind].
  fold (collect (Array2 n0 n1 g) rest). rewrite H. cbn [bind].
  now rewrite Hv.
Qed.

Lemma neighbours_nonneg (i j : Z) :
  1 <= i -> 1 <= j ->
  Forall (fun p => 0 <= fst p /\ 0 <= snd p) (neighbours i j).
Proof.
  intros Hi Hj. unfold neighbours. simpl.
  repeat (constructor; [cbn [fst snd]; lia|]). constructor.
Qed.

(** The search has twelve candidates. *)
Lemma neighbours_length (i j : Z) : List.length (neighbours i j) = 12%nat.
Proof. reflexivity. Qed.

(** Away from the near edges of the grid the search returns the usable
    candidates, and fails when there is none. *)
Lemma find_extrapolation_points_interior (self : t num) (n0 n1 : Z)
    (g : Z -> Z -> num) (x : num * num) (i j : Z) :
  mask self = Some (Array2 n0 n1 g) ->
  dict_get (extrapolation_points self) x = None ->
  1 <= i -> 1 <= j ->
  let pts := filter (valid_point n0 n1 g) (neighbours i j) in
  fst (find_extrapolation_points self x i j) =
  match pts with
  | [] => Raise (CoordinateError
                   "Inside landmask - tried extrapolating but failed" x i j)
  | _ :: _ => Return pts
  end.
Proof.
  intros Hm Hc Hi Hj pts. unfold find_extrapolation_points.
  rewrite Hc, Hm, (collect_nonneg _ _ _ _ (neighbours_nonneg i j Hi Hj)).
  fold pts. destruct pts; reflexivity.
Qed.

Lemma values_at_valid (n0 n1 : Z) (f g : Z -> Z -> num) (ijs : list (Z * Z)) :
  values_at (Array2 n0 n1 f) (filter (valid_point n0 n1 g) ijs) =
  Return (map (fun p => f (fst p) (snd p)) (filter (valid_point n0 n1 g) ijs)).
Proof.
  induction ijs as [| [a b] rest IH]; [reflexivity|].
  cbn [filter]. destruct (valid_point n0 n1 g (a, b)) eqn:E; [|exact IH].
  unfold valid_point in E. cbn [fst snd] in E.
  rewrite !andb_true_iff, !Z.leb_le, !Z.ltb_lt in E.
  cbn [values_at map fst snd].
  rewrite getitem2_inside, IH by lia. reflexivity.
Qed.

Lemma find_extrapolation_points_keeps_val (self : t num) (x : num * num)
    (i j : Z) :
  val (snd (find_extrapolation_points self x i j)) = val self.
Proof.
  unfold find_extrapolation_points.
  destruct (dict_get (extrapolation_points self) x); [reflexivity|].
  destruct (mask self) as [m|]; [|reflexivity].
  destruct (collect m (neighbours i j)) as [pts | e]; [|reflexivity].
  destruct (Z.of_nat (List.length pts) =? 0); reflexivity.
Qed.

(** The mean over a list that is not empty is the division of line 80. *)
Lemma mean_nonempty {B : Type} (vs : list num) (p : B) (pts : list B) :
  mean vs (Z.of_nat (List.length (p :: pts)))
  = Return (truediv_int (sum vs) (Z.of_nat (List.length (p :: pts)))).
Proof.
  unfold mean.
  replace (Z.of_nat (List.length (p :: pts)) =? 0) with false; [reflexivity|].
  symmetry. apply Z.eqb_neq. cbn [List.length]. lia.
Qed.

(** In a cell away from the near edges whose sum of masked weights is not
    above zero, [get_val] with extrapolation returns the plain mean of the
    field over the usable candidates, and fails when there is none. *)
Lemma get_val_extrapolation_interior
    (n0 n1 : Z) (f g : Z -> Z -> num) (self : t num) (x : num * num)
    (xhat yhat : num) (i j : Z) :
  val self = Array2 n0 n1 f -> mask self = Some (Array2 n0 n1 g) ->
  dict_get (extrapolation_points self) x = None ->
  grid_indices self x = Return (xhat, yhat, i, j) ->
  corners_inside n0 n1 i j -> 1 <= i -> 1 <= j ->
  positive (weight_sum g i j (mod1 xhat) (mod1 yhat)) = false ->
  let pts := filter (valid_point n0 n1 g) (neighbours i j) in
  fst (get_val self x true) =
  match pts with
  | [] => Raise (CoordinateError
                   "Inside landmask - tried extrapolating but failed" x i j)
  | _ :: _ =>
      Return (truediv_int (sum (map (fun p => f (fst p) (snd p)) pts))
                (Z.of_nat (List.length pts)))
  end.
Proof.
  intros Hv Hm Hc Hidx Hin Hi Hj Hneg pts.
  rewrite (get_val_masked n0 n1 f self Hv x xhat yhat i j Hidx g Hm true Hin).
  rewrite Hneg.
  pose proof (find_extrapolation_points_interior self n0 n1 g x i j Hm Hc Hi Hj)
    as Hfind.
  pose proof (find_extrapolation_points_keeps_val self x i j) as Hval.
  cbv zeta in Hfind. fold pts in Hfind.
  destruct (find_extrapolation_points self x i j) as [r self'].
  cbn [fst snd] in Hfind, Hval. subst r.
  destruct pts as [| p pts'] eqn:Epts; [reflexivity|].
  rewrite Hval, Hv, <- Epts. unfold pts at 1. rewrite values_at_valid.
  fold pts. cbn [bind]. rewrite Epts.
  rewrite mean_nonempty. reflexivity.
Qed.

End Generic.
End Extrapolation.

(** A mask of the example grid whose only valid point is [(3, 1)], on the
    far edge of the first axis. *)
Definition far_edge_mask : ndarray float :=
  Array2 4 4 (fun i j => if (i =? 3) && (j =? 1) then 1%float else 0%float).

(** The same with the valid point [(2, 0)] added. *)
Definition two_point_mask : ndarray float :=
  Array2 4 4
    (fun i j =>
       if ((i =? 3) && (j =? 1)) || ((i =? 2) && (j =? 0))
       then 1%float else 0%float).

(** C8.  In the first cell of the example grid, with [far_edge_mask], the
    search returns the candidate [(-1, 1)]: the offset [(i-1, j+1)] lies
    outside the array, yet [mask[-1, 1]] reads the last row, finds
    [mask[3, 1] = 1] and the candidate is kept instead of being skipped.
    No candidate inside the array is valid there. *)
Theorem find_extrapolation_points_wraps_around :
  fst (Interpolator.find_extrapolation_points
         (example_interpolator (Some far_edge_mask)) (0.5, 0.5)%float 0 0)
  = Return [(-1, 1)]
  /\ getitem2 far_edge_mask (-1) 1 = getitem2 far_edge_mask 3 1
  /\ filter (valid_point 4 4
               (fun i j => if (i =? 3) && (j =? 1) then 1%float else 0%float))
       (Interpolator.neighbours 0 0) = [].
Proof.
  repeat split.
Qed.

(** C2.  In the first cell of the example grid [get_val] with
    extrapolation averages over candidates with a negative index.  With
    [far_edge_mask] no candidate inside the array is valid, yet the call
    returns [val[3, 1] = 4] instead of failing.  With [two_point_mask] the
    only valid candidate inside the array is [(2, 0)], where the field is
    2, yet the call returns 3, the mean of [val[3, 1]] and [val[2, 0]].
    Both masks are zero at the four corners of the cell. *)
Theorem get_val_extrapolates_from_wrapped_points :
  fst (Interpolator.get_val (example_interpolator (Some far_edge_mask))
         (0.5, 0.5)%float true) = Return 4%float
  /\ fst (Interpolator.get_val (example_interpolator (Some two_point_mask))
            (0.5, 0.5)%float true) = Return 3%float
  /\ filter (valid_point 4 4
               (fun i j =>
                  if ((i =? 3) && (j =? 1)) || ((i =? 2) && (j =? 0))
                  then 1%float else 0%float))
       (Interpolator.neighbours 0 0) = [(2, 0)]
  /\ getitem2 example_field 2 0 = Return 2%float
  /\ corners_are
       (fun i j => if (i =? 3) && (j =? 1) then 1%float else 0%float) 0 0
       0%float
  /\ corners_are
       (fun i j =>
          if ((i =? 3) && (j =? 1)) || ((i =? 2) && (j =? 0))
          then 1%float else 0%float) 0 0 0%float.
Proof.
  split; [vm_compute; reflexivity|].
  split; [vm_compute; reflexivity|].
  repeat split.
Qed.

(** ** The reader: windows, fields and queries *)

Module Reader.
Import NetCDFInterpolator.

Section Generic.
Context {num : Type} {A : Arithmetic num}.

(** Whatever its outcome, a call of [set_ranges] leaves a window behind. *)
Lemma set_ranges_leaves_iranges (self : t num) (ranges : list (num * num)) :
  exists ir, iranges (snd (set_ranges self ranges)) = Some ir.
Proof.
  unfold set_ranges.
  destruct (iranges self) as [ir0 |] eqn:E; [exists ir0; exact E|].
  destruct (range_loop _) as [[u | e] [[ir origin_new] shape_new]];
    [|eexists; reflexivity].
  cbn [mask].
  destruct (mask self) as [m |]; cbn [bind].
  - destruct (window_slice m ir) as [m' | e]; cbn [bind];
      [|eexists; reflexivity].
    cbn [interpolator val].
    destruct (interpolator self) as [| [ip |]]; try (eexists; reflexivity).
    destruct (val self) as [| v]; [eexists; reflexivity|].
    destruct (window_slice v ir); eexists; reflexivity.
  - cbn [interpolator val].
    destruct (interpolator self) as [| [ip |]]; try (eexists; reflexivity).
    destruct (val self) as [| v]; [eexists; reflexivity|].
    destruct (window_slice v ir); eexists; reflexivity.
Qed.

Lemma set_ranges_again (self : t num) (ranges : list (num * num))
    (ir : list (Z * Z)) :
  iranges self = Some ir ->
  set_ranges self ranges =
  (Raise (NetCDFInterpolatorError "set_ranges() should only be called once!"),
   self).
Proof. intros H. unfold set_ranges. now rewrite H. Qed.

(** The methods other than [set_field] keep an absent interpolator absent. *)
Lemma set_ranges_keeps_no_interpolator (self : t num)
    (ranges : list (num * num)) :
  interpolator self = Has None ->
  interpolator (snd (set_ranges self ranges)) = Has None.
Proof.
  intros H. unfold set_ranges.
  destruct (iranges self); [exact H|].
  destruct (range_loop _) as [[u | e] [[ir origin_new] shape_new]]; [|exact H].
  cbn [mask].
  destruct (mask self) as [m |]; cbn [bind].
  - destruct (window_slice m ir) as [m' | e]; cbn [bind]; [|exact H].
    cbn [interpolator]. rewrite H. reflexivity.
  - cbn [interpolator]. rewrite H. reflexivity.
Qed.

Lemma update_interpolator_mask_keeps_no_interpolator (self : t num) :
  interpolator self = Has None ->
  interpolator (snd (update_interpolator_mask self)) = Has None.
Proof. intros H. unfold update_interpolator_mask. rewrite H. exact H. Qed.

Lemma set_mask_keeps_no_interpolator (self : t num) (name : string) :
  interpolator self = Has None ->
  interpolator (snd (set_mask self name)) = Has None.
Proof.
  intros H. unfold set_mask. destruct (load self name); [|exact H].
  apply update_interpolator_mask_keeps_no_interpolator. exact H.
Qed.

Lemma set_mask_from_fill_value_keeps_no_interpolator (self : t num)
    (name : string) (fill_value : num) :
  interpolator self = Has None ->
  interpolator (snd (set_mask_from_fill_value self name fill_value)) = Has None.
Proof.
  intros H. unfold set_mask_from_fill_value.
  destruct (load self name) as [v | e]; [|exact H].
  destruct (rank v) as [| [| [| n]]]; try exact H.
  apply update_interpolator_mask_keeps_no_interpolator. exact H.
Qed.

Lemma grid_setup_no_interpolator (nc : NetCDFFile num) (args : arguments num)
    (self : t num) :
  grid_setup nc args = Return self -> interpolator self = Has None.
Proof.
  destruct args as [nci | dims fields]; simpl.
  - intros H. injection H as <-. reflexivity.
  - destruct (read_axes nc (combine dims fields)) as [[[s o] d] | e]; simpl;
      [|discriminate].
    intros H. injection H as <-. reflexivity.
Qed.

(** With the keyword [ranges] the constructor never gets past line 202. *)
Lemma __init___with_ranges (nc : NetCDFFile num) (args : arguments num)
    (kwargs : list (string * list (num * num))) :
  dict_contains kwargs "ranges" = true ->
  __init__ nc args kwargs =
  match grid_setup nc args with
  | Return _ => Raise (TypeError "'dict' object is not callable")
  | Raise e => Raise e
  end.
Proof.
  intros H. unfold __init__. destruct (grid_setup nc args); simpl; [|reflexivity].
  now rewrite H.
Qed.

Lemma __init___no_interpolator (nc : NetCDFFile num) (args : arguments num)
    (kwargs : list (string * list (num * num))) (self : t num) :
  __init__ nc args kwargs = Return self -> interpolator self = Has None.
Proof.
  unfold __init__. destruct (grid_setup nc args) as [self0 |] eqn:E; simpl;
    [|discriminate].
  destruct (dict_contains kwargs "ranges"); simpl; [discriminate|].
  intros H. injection H as <-. exact (grid_setup_no_interpolator _ _ _ E).
Qed.

(** The objects on which [set_field] has not been called: a new object,
    and what the other methods make of such an object. *)
Inductive field_not_selected : t num -> Prop :=
| new_object nc args kwargs self :
    __init__ nc args kwargs = Return self -> field_not_selected self
| after_set_ranges self ranges :
    field_not_selected self ->
    field_not_selected (snd (set_ranges self ranges))
| after_set_mask self name :
    field_not_selected self ->
    field_not_selected (snd (set_mask self name))
| after_set_mask_from_fill_value self name fill_value :
    field_not_selected self ->
    field_not_selected (snd (set_mask_from_fill_value self name fill_value))
| after_get_val self x allow_extrapolation :
    field_not_selected self ->
    field_not_selected (snd (get_val self x allow_extrapolation)).

Lemma field_not_selected_no_interpolator (self : t num) :
  field_not_selected self -> interpolator self = Has None.
Proof.
  induction 1 as [nc args kwargs self H | self ranges _ IH | self name _ IH
                 | self name fill _ IH | self x allow _ IH].
  - exact (__init___no_interpolator _ _ _ _ H).
  - now apply set_ranges_keeps_no_interpolator.
  - now apply set_mask_keeps_no_interpolator.
  - now apply set_mask_from_fill_value_keeps_no_interpolator.
  - unfold get_val. rewrite IH. exact IH.
Qed.

End Generic.
End Reader.

(** The file of the worked examples: a 4 x 4 grid with unit spacing, the
    field [z[i,j] = i + j], and a scalar variable. *)
Definition example_file : NetCDFFile float := {|
  dimensions := [("nx"%string, 4); ("ny"%string, 4)];
  variables :=
    [("longitude"%string, Array1 4 (fun i => Binary64.of_int i));
     ("latitude"%string, Array1 4 (fun j => Binary64.of_int j));
     ("z"%string, example_field);
     ("time"%string, Array0 0%float)]
|}.

Definition example_arguments : NetCDFInterpolator.arguments float :=
  NetCDFInterpolator.FromNames ["nx"%string; "ny"%string]
    ["longitude"%string; "latitude"%string].

(** The reader on the example grid, before a field is selected. *)
Definition example_reader : NetCDFInterpolator.t float :=
  NetCDFInterpolator.mk example_file [4; 4] [0%float; 0%float]
    [1%float; 1%float] None None (Has None) Missing Missing.

(** The documented use of the class on the example file: open, select the
    field, interpolate. *)
Example example_query :
  NetCDFInterpolator.__init__ example_file example_arguments []
  = Return example_reader
  /\ fst (NetCDFInterpolator.get_val
            (snd (NetCDFInterpolator.set_field example_reader "z"))
            (1.5, 1.5)%float false) = Return 3%float.
Proof.
  split; [reflexivity | vm_compute; reflexivity].
Qed.

(** A step of zero.  On numpy scalars the quotient of line 58 is an
    infinity, which [math.floor] rejects; on Python floats the division
    itself fails. *)
Example get_val_zero_step :
  fst (Interpolator.get_val
         (Interpolator.__init__ [0%float; 0%float] [0%float; 1%float]
            example_field None)
         (1, 0.5)%float false) = Raise OverflowError
  /\ fst (Interpolator.get_val (A := python_float)
            (Interpolator.__init__ [0%float; 0%float] [0%float; 1%float]
               example_field None)
            (1, 0.5)%float false) = Raise ZeroDivisionError.
Proof.
  split; vm_compute; reflexivity.
Qed.

(** An axis of one point.  The step of line 189 is [0.0/0], a [nan] on
    numpy scalars, and the constructor returns. *)
Example __init___single_point_axis :
  let nc :=
    {| dimensions := [("nx"%string, 1); ("ny"%string, 4)];
       variables :=
         [("longitude"%string, Array1 1 (fun _ => 2.5%float));
          ("latitude"%string, Array1 4 (fun j => Binary64.of_int j))] |} in
  NetCDFInterpolator.__init__ nc example_arguments []
  = Return (NetCDFInterpolator.mk nc [1; 4] [2.5%float; 0%float]
              [nan; 1%float] None None (Has None) Missing Missing).
Proof.
  reflexivity.
Qed.

(** C6.  As long as [set_field] has not been called, [get_val] raises
    [AttributeError]: the constructor has assigned [None] to
    [self.interpolator], so the test [hasattr(self, "interpolator")] holds
    and the configuration error behind it is never raised. *)
Theorem get_val_before_set_field :
  forall (num : Type) (A : Arithmetic num) (self : NetCDFInterpolator.t num)
         (x : num * num) (allow_extrapolation : bool),
    Reader.field_not_selected self ->
    NetCDFInterpolator.get_val self x allow_extrapolation
    = (Raise (AttributeError "'NoneType' object has no attribute 'get_val'"),
       self).
Proof.
  intros num A self x allow H. unfold NetCDFInterpolator.get_val.
  now rewrite (Reader.field_not_selected_no_interpolator self H).
Qed.

Lemma get_val_before_set_field_witness :
  Reader.field_not_selected
    (snd (NetCDFInterpolator.set_ranges example_reader
            [(0.5, 1.5)%float; (0.5, 1.5)%float]))
  /\ NetCDFInterpolator.get_val
       (snd (NetCDFInterpolator.set_ranges example_reader
               [(0.5, 1.5)%float; (0.5, 1.5)%float]))
       (1, 1)%float false
     = (Raise (AttributeError "'NoneType' object has no attribute 'get_val'"),
        snd (NetCDFInterpolator.set_ranges example_reader
               [(0.5, 1.5)%float; (0.5, 1.5)%float])).
Proof.
  assert (H : Reader.field_not_selected
                (snd (NetCDFInterpolator.set_ranges example_reader
                        [(0.5, 1.5)%float; (0.5, 1.5)%float]))).
  { apply Reader.after_set_ranges.
    apply (Reader.new_object example_file
             (NetCDFInterpolator.FromGrid example_reader) []).
    reflexivity. }
  split; [exact H|].
  apply (get_val_before_set_field _ _ _ _ _ H).
Defined.

(** C9.  A call of [set_ranges] that follows another call of [set_ranges]
    on the same object, whatever the outcome of the first, fails with the
    configuration error "set_ranges() should only be called once!" and
    changes nothing. *)
Theorem set_ranges_only_once :
  forall (num : Type) (A : Arithmetic num) (self : NetCDFInterpolator.t num)
         (first second : list (num * num)),
    let self1 := snd (NetCDFInterpolator.set_ranges self first) in
    NetCDFInterpolator.set_ranges self1 second
    = (Raise (NetCDFInterpolatorError "set_ranges() should only be called once!"),
       self1).
Proof.
  intros num A self first second self1.
  destruct (Reader.set_ranges_leaves_iranges self first) as [ir H].
  exact (Reader.set_ranges_again self1 second ir H).
Qed.

(** C10 as the specification has it: every construction with the keyword
    [ranges] raises a [TypeError]. *)
Definition ranges_keyword_raises_TypeError : Prop :=
  forall (nc : NetCDFFile float) (args : NetCDFInterpolator.arguments float)
         (kwargs : list (string * list (float * float))),
    dict_contains kwargs "ranges" = true ->
    exists message,
      NetCDFInterpolator.__init__ nc args kwargs = Raise (TypeError message).

(** A coordinate variable that is neither 1d nor 2d is rejected before the
    keyword arguments are looked at. *)
Lemma ranges_keyword_after_grid_setup :
  ~ ranges_keyword_raises_TypeError.
Proof.
  intros spec.
  destruct (spec example_file
              (NetCDFInterpolator.FromNames ["nx"%string] ["time"%string])
              [("ranges"%string, [(0.5, 1.5)%float])] eq_refl) as [message H].
  vm_compute in H. discriminate H.
Qed.

(** C10, amended.  A construction with the keyword [ranges] never returns
    an object and applies no window: when the grid set-up from the
    positional arguments completes, the constructor raises the [TypeError]
    of calling the dict [kwargs]; when the set-up itself raises, that
    exception is the outcome. *)
Theorem __init___ranges_keyword :
  forall (num : Type) (A : Arithmetic num) (nc : NetCDFFile num)
         (args : NetCDFInterpolator.arguments num)
         (kwargs : list (string * list (num * num))),
    dict_contains kwargs "ranges" = true ->
    (forall self, NetCDFInterpolator.__init__ nc args kwargs <> Return self)
    /\ (forall self,
           NetCDFInterpolator.grid_setup nc args = Return self ->
           NetCDFInterpolator.__init__ nc args kwargs
           = Raise (TypeError "'dict' object is not callable"))
    /\ (forall e,
           NetCDFInterpolator.grid_setup nc args = Raise e ->
           NetCDFInterpolator.__init__ nc args kwargs = Raise e).
Proof.
  intros num A nc args kwargs H.
  rewrite (Reader.__init___with_ranges nc args kwargs H).
  destruct (NetCDFInterpolator.grid_setup nc args) as [self0 | e0].
  - repeat split; intros; congruence.
  - repeat split; intros; congruence.
Qed.

Lemma __init___ranges_keyword_witness :
  NetCDFInterpolator.__init__ example_file example_arguments
    [("ranges"%string, [(0.5, 1.5)%float; (0.5, 1.5)%float])]
  = Raise (TypeError "'dict' object is not callable").
Proof.
  apply (proj1 (proj2 (__init___ranges_keyword float numpy_float64
                         example_file example_arguments
                         [("ranges"%string,
                           [(0.5, 1.5)%float; (0.5, 1.5)%float])]
                         eq_refl)) example_reader).
  reflexivity.
Defined.

(** ** The window of [set_ranges] *)

Section Windows.
Context {num : Type} {A : Arithmetic num}.

(** The window of one axis in the words of the specification: both bounds
    from a floor of the quotient. *)
Definition floor_window (xlimits : num * num) (xmin : num) (xshape : Z)
    (deltax : num) : outcome num (Z * Z) :=
  q0 <- truediv (fst xlimits - xmin)%num deltax ;;
  k0 <- floor q0 ;;
  q1 <- truediv (snd xlimits - xmin)%num deltax ;;
  k1 <- floor q1 ;;
  Return (Z.max (k0 - 1) 0, Z.min (k1 + 3) xshape).

(** The window of one axis with the upper bound from [int], which rounds
    toward zero. *)
Definition window (xlimits : num * num) (xmin : num) (xshape : Z)
    (deltax : num) : outcome num (Z * Z) :=
  q0 <- truediv (fst xlimits - xmin)%num deltax ;;
  k0 <- floor q0 ;;
  q1 <- truediv (snd xlimits - xmin)%num deltax ;;
  k1 <- int q1 ;;
  Return (Z.max (k0 - 1) 0, Z.min (k1 + 3) xshape).

End Windows.

Module Window.
Import NetCDFInterpolator.

Section Generic.
Context {num : Type} {A : Arithmetic num}.

(** For the lower bound the clamp hides the difference between [int] and
    the floor. *)
Lemma axis_bounds_window (xlimits : num * num) (xmin : num) (xshape : Z)
    (deltax : num) :
  axis_bounds xlimits xmin xshape deltax = window xlimits xmin xshape deltax.
Proof.
  unfold axis_bounds, window.
  destruct (truediv (fst xlimits - xmin)%num deltax) as [q0 | e]; cbn [bind];
    [|reflexivity].
  unfold int at 1, floor. destruct (rational q0) as [r0 | e]; cbn [bind];
    [|reflexivity].
  now rewrite truncate_floor_lower.
Qed.

Lemma axis_range_returns (xlimits : num * num) (xmin : num) (xshape : Z)
    (deltax : num) (r : Z * Z) :
  axis_range xlimits xmin xshape deltax = Return r ->
  window xlimits xmin xshape deltax = Return r /\ fst r < snd r.
Proof.
  unfold axis_range. rewrite axis_bounds_window.
  destruct (window xlimits xmin xshape deltax) as [[imin imax] | e];
    cbn [bind]; [|discriminate].
  destruct (imin >=? imax) eqn:E; [discriminate|].
  intros H. injection H as <-. cbn [fst snd].
  split; [reflexivity|]. rewrite Z.geb_leb in E. apply Z.leb_gt in E. exact E.
Qed.

Lemma axis_range_raises (xlimits : num * num) (xmin : num) (xshape : Z)
    (deltax : num) (imin imax : Z) :
  window xlimits xmin xshape deltax = Return (imin, imax) ->
  imin >= imax ->
  axis_range xlimits xmin xshape deltax
  = Raise (NetCDFInterpolatorError "Provided ranges outside netCDF range").
Proof.
  intros Hw H. unfold axis_range. rewrite axis_bounds_window, Hw. cbn [bind].
  replace (imin >=? imax) with true; [reflexivity|].
  symmetry. apply Z.geb_le. lia.
Qed.

Lemma axis_range_cases (xlimits : num * num) (xmin : num) (xshape : Z)
    (deltax : num) (w : Z * Z) :
  window xlimits xmin xshape deltax = Return w ->
  axis_range xlimits xmin xshape deltax
  = Raise (NetCDFInterpolatorError "Provided ranges outside netCDF range")
  \/ axis_range xlimits xmin xshape deltax = Return w.
Proof.
  intros Hw. unfold axis_range. rewrite axis_bounds_window, Hw.
  destruct w as [imin imax]. cbn [bind].
  destruct (imin >=? imax); [now left | now right].
Qed.

(** A loop that ends normally has appended the window, the new origin and
    the new length of every axis. *)
Lemma range_loop_returns (axes : list ((num * num) * num * Z * num)) (u : unit)
    (ir : list (Z * Z)) (origin_new : list num) (shape_new : list Z) :
  range_loop axes = (Return u, (ir, origin_new, shape_new)) ->
  forall (k : nat) xlimits xmin xshape deltax,
    nth_error axes k = Some (xlimits, xmin, xshape, deltax) ->
    exists imin imax,
      window xlimits xmin xshape deltax = Return (imin, imax)
      /\ imin < imax
      /\ nth_error ir k = Some (imin, imax)
      /\ nth_error origin_new k = Some (xmin + of_int imin * deltax)%num
      /\ nth_error shape_new k = Some (imax - imin).
Proof.
  revert ir origin_new shape_new.
  induction axes as [| [[[xl0 xmin0] xshape0] deltax0] rest IH];
    intros ir origin_new shape_new H k xlimits xmin xshape deltax Hk.
  - destruct k; discriminate Hk.
  - cbn [range_loop] in H.
    destruct (axis_range xl0 xmin0 xshape0 deltax0) as [[imin0 imax0] | e] eqn:E;
      [|discriminate].
    destruct (range_loop rest) as [r [[ir' o'] s']] eqn:E'.
    injection H as -> <- <- <-.
    destruct (axis_range_returns _ _ _ _ _ E) as [Hw Hlt].
    destruct k as [| k].
    + injection Hk as <- <- <- <-. cbn [nth_error].
      exists imin0, imax0. cbn [fst snd] in Hlt. repeat split; assumption.
    + cbn [nth_error] in *. exact (IH _ _ _ eq_refl k _ _ _ _ Hk).
Qed.

(** A loop over axes whose windows are computed is left by the
    configuration error as soon as one axis has an empty window. *)
Lemma range_loop_raises (axes : list ((num * num) * num * Z * num)) :
  Forall (fun '(xlimits, xmin, xshape, deltax) =>
            exists w, window xlimits xmin xshape deltax = Return w) axes ->
  Exists (fun '(xlimits, xmin, xshape, deltax) =>
            exists imin imax,
              window xlimits xmin xshape deltax = Return (imin, imax)
              /\ imin >= imax) axes ->
  fst (range_loop axes)
  = Raise (NetCDFInterpolatorError "Provided ranges outside netCDF range").
Proof.
  induction axes as [| [[[xl0 xmin0] xshape0] deltax0] rest IH];
    intros Hd Hex.
  - inversion Hex.
  - inversion Hd as [| ? ? Hw Hd']; subst. destruct Hw as [w Hw].
    cbn [range_loop].
    destruct (axis_range_cases xl0 xmin0 xshape0 deltax0 w Hw) as [-> | E];
      [reflexivity|].
    rewrite E. destruct w as [a b].
    inversion Hex as [? ? Hbad | ? ? Hex']; subst.
    + destruct Hbad as (imin & imax & Hbad & Hge).
      rewrite (axis_range_raises _ _ _ _ _ _ Hbad Hge) in E. discriminate E.
    + specialize (IH Hd' Hex').
      destruct (range_loop rest) as [r [[ir' o'] s']]. exact IH.
Qed.

(** What a successful call leaves in the object. *)
Lemma set_ranges_returns (self self' : t num) (ranges : list (num * num))
    (u : unit) :
  set_ranges self ranges = (Return u, self') ->
  exists ir origin_new shape_new,
    range_loop (zip4 ranges (origin self) (shape self) (delta self))
    = (Return tt, (ir, origin_new, shape_new))
    /\ iranges self' = Some ir
    /\ origin self' = origin_new
    /\ shape self' = shape_new
    /\ delta self' = delta self.
Proof.
  unfold set_ranges.
  destruct (iranges self); [discriminate|].
  destruct (range_loop _) as [[[] | e] [[ir origin_new] shape_new]];
    [|discriminate].
  intros H. exists ir, origin_new, shape_new. split; [reflexivity|].
  cbn [mask] in H.
  destruct (mask self) as [m |]; cbn [bind] in H.
  - destruct (window_slice m ir) as [m' | e]; cbn [bind] in H; [|discriminate].
    cbn [interpolator val] in H.
    destruct (interpolator self) as [| [ip |]]; try discriminate.
    + destruct (val self) as [| v]; [discriminate|].
      destruct (window_slice v ir); [|discriminate].
      injection H as _ <-. repeat split.
    + injection H as _ <-. repeat split.
  - cbn [interpolator val] in H.
    destruct (interpolator self) as [| [ip |]]; try discriminate.
    + destruct (val self) as [| v]; [discriminate|].
      destruct (window_slice v ir); [|discriminate].
      injection H as _ <-. repeat split.
    + injection H as _ <-. repeat split.
Qed.

Lemma set_ranges_loop_raises (self : t num) (ranges : list (num * num))
    (e : exn num) :
  iranges self = None ->
  fst (range_loop (zip4 ranges (origin self) (shape self) (delta self)))
  = Raise e ->
  fst (set_ranges self ranges) = Raise e.
Proof.
  intros Hir H. unfold set_ranges. rewrite Hir.
  destruct (range_loop _) as [[u | e'] [[ir origin_new] shape_new]];
    cbn [fst] in H; [discriminate|].
  exact H.
Qed.

End Generic.
End Window.

(** C5 as the specification has it: the window of a successful call from
    [floor_window], and the new origin and shape from that window. *)
Definition set_ranges_floor_window : Prop :=
  forall (self self' : NetCDFInterpolator.t float)
         (ranges : list (float * float)),
    NetCDFInterpolator.iranges self = None ->
    NetCDFInterpolator.set_ranges self ranges = (Return tt, self') ->
    forall (k : nat) xlimits xmin xshape deltax,
      nth_error (zip4 ranges (NetCDFInterpolator.origin self)
                   (NetCDFInterpolator.shape self)
                   (NetCDFInterpolator.delta self)) k
      = Some (xlimits, xmin, xshape, deltax) ->
      exists imin imax,
        floor_window xlimits xmin xshape deltax = Return (imin, imax)
        /\ (exists ir, NetCDFInterpolator.iranges self' = Some ir
                       /\ nth_error ir k = Some (imin, imax))
        /\ nth_error (NetCDFInterpolator.origin self') k
           = Some (xmin + of_int imin * deltax)%num
        /\ nth_error (NetCDFInterpolator.shape self') k = Some (imax - imin).

(** A requested upper bound half a cell below the origin: [int(-0.5)] is 0
    where the floor is -1, and the window of the example grid is [0:3]
    where [floor_window] has [0:2]. *)
Lemma set_ranges_rounds_toward_zero :
  ~ set_ranges_floor_window.
Proof.
  intros spec.
  pose (ranges := [(-1, -0.5)%float; (-1, -0.5)%float]).
  assert (E : NetCDFInterpolator.set_ranges example_reader ranges
              = (Return tt,
                 snd (NetCDFInterpolator.set_ranges example_reader ranges)))
    by reflexivity.
  destruct (spec example_reader
              (snd (NetCDFInterpolator.set_ranges example_reader ranges))
              ranges eq_refl E
              0%nat (-1, -0.5)%float 0%float 4 1%float eq_refl)
    as (imin & imax & Hw & _ & _ & H).
  vm_compute in Hw. injection Hw as <- <-.
  vm_compute in H. discriminate H.
Qed.

(** The quotient 0.5/0.1 is 5.0 in binary64: the upper bound 0.5 on an axis
    of ten nodes from 0.0 in steps of 0.1 gives [imax = 8]. *)
Example axis_range_rounded_quotient :
  NetCDFInterpolator.axis_range (0, 0.5)%float 0%float 10 0.1%float
  = Return (0, 8).
Proof. vm_compute. reflexivity. Qed.

(** C5, amended.  After a successful call of [set_ranges] (which is then
    the first call) the window of every axis is
    [imin = max(floor((xmin_req-origin)/delta) - 1, 0)] and
    [imax = min(int((xmax_req-origin)/delta) + 3, shape)], where the
    quotients are the numbers that the two divisions return and [int]
    rounds toward zero, and the object has [origin + imin*delta] as origin
    and [imax - imin] as shape on that axis.  On an object without a
    window, when these two bounds are computed for every axis, the call
    fails with the configuration error "Provided ranges outside netCDF
    range" if [imin >= imax] on some axis. *)
Theorem set_ranges_window :
  forall (num : Type) (A : Arithmetic num),
  (forall (self self' : NetCDFInterpolator.t num) (ranges : list (num * num)),
      NetCDFInterpolator.set_ranges self ranges = (Return tt, self') ->
      forall (k : nat) xlimits xmin xshape deltax,
        nth_error (zip4 ranges (NetCDFInterpolator.origin self)
                     (NetCDFInterpolator.shape self)
                     (NetCDFInterpolator.delta self)) k
        = Some (xlimits, xmin, xshape, deltax) ->
        exists imin imax,
          window xlimits xmin xshape deltax = Return (imin, imax)
          /\ (exists ir, NetCDFInterpolator.iranges self' = Some ir
                         /\ nth_error ir k = Some (imin, imax))
          /\ nth_error (NetCDFInterpolator.origin self') k
             = Some (xmin + of_int imin * deltax)%num
          /\ nth_error (NetCDFInterpolator.shape self') k = Some (imax - imin))
  /\
  (forall (self : NetCDFInterpolator.t num) (ranges : list (num * num)),
      NetCDFInterpolator.iranges self = None ->
      Forall (fun '(xlimits, xmin, xshape, deltax) =>
                exists w, window xlimits xmin xshape deltax = Return w)
        (zip4 ranges (NetCDFInterpolator.origin self)
           (NetCDFInterpolator.shape self) (NetCDFInterpolator.delta self)) ->
      Exists (fun '(xlimits, xmin, xshape, deltax) =>
                exists imin imax,
                  window xlimits xmin xshape deltax = Return (imin, imax)
                  /\ imin >= imax)
        (zip4 ranges (NetCDFInterpolator.origin self)
           (NetCDFInterpolator.shape self) (NetCDFInterpolator.delta self)) ->
      fst (NetCDFInterpolator.set_ranges self ranges)
      = Raise (NetCDFInterpolatorError "Provided ranges outside netCDF range")).
Proof.
  intros num A. split.
  - intros self self' ranges H k xlimits xmin xshape deltax Hk.
    destruct (Window.set_ranges_returns _ _ _ _ H)
      as (ir & origin_new & shape_new & Hloop & Hir & Ho & Hs & _).
    destruct (Window.range_loop_returns _ _ _ _ _ Hloop k _ _ _ _ Hk)
      as (imin & imax & Hw & _ & Hk1 & Hk2 & Hk3).
    exists imin, imax. rewrite Ho, Hs. repeat split; try assumption.
    exists ir. split; assumption.
  - intros self ranges Hir Hd Hex.
    apply Window.set_ranges_loop_raises; [exact Hir|].
    apply Window.range_loop_raises; assumption.
Qed.

Lemma set_ranges_window_witness :
  (exists imin imax,
      window (2.2, 2.4)%float 0%float 4 1%float = Return (imin, imax)
      /\ (exists ir,
             NetCDFInterpolator.iranges
               (snd (NetCDFInterpolator.set_ranges example_reader
                       [(2.2, 2.4)%float; (2.2, 2.4)%float])) = Some ir
             /\ nth_error ir 0 = Some (imin, imax))
      /\ nth_error
           (NetCDFInterpolator.origin
              (snd (NetCDFInterpolator.set_ranges example_reader
                      [(2.2, 2.4)%float; (2.2, 2.4)%float]))) 0
         = Some (0 + of_int imin * 1)%float
      /\ nth_error
           (NetCDFInterpolator.shape
              (snd (NetCDFInterpolator.set_ranges example_reader
                      [(2.2, 2.4)%float; (2.2, 2.4)%float]))) 0
         = Some (imax - imin))
  /\ fst (NetCDFInterpolator.set_ranges example_reader
            [(5, 6)%float; (2.2, 2.4)%float])
     = Raise (NetCDFInterpolatorError "Provided ranges outside netCDF range").
Proof.
  split.
  - assert (E : NetCDFInterpolator.set_ranges example_reader
                  [(2.2, 2.4)%float; (2.2, 2.4)%float]
                = (Return tt,
                   snd (NetCDFInterpolator.set_ranges example_reader
                          [(2.2, 2.4)%float; (2.2, 2.4)%float])))
      by reflexivity.
    apply (proj1 (set_ranges_window float numpy_float64) example_reader
             (snd (NetCDFInterpolator.set_ranges example_reader
                     [(2.2, 2.4)%float; (2.2, 2.4)%float]))
             [(2.2, 2.4)%float; (2.2, 2.4)%float] E
             0%nat (2.2, 2.4)%float 0%float 4 1%float eq_refl).
  - apply (proj2 (set_ranges_window float numpy_float64) example_reader
             [(5, 6)%float; (2.2, 2.4)%float] eq_refl).
    + repeat constructor; eexists; vm_compute; reflexivity.
    + apply Exists_cons_hd. exists 4, 4. split; [vm_compute; reflexivity | lia].
Defined.

(** * Further properties *)

(** ** The interpolator as an object: what a query changes *)

Module Cache.
Import Interpolator InterpolatorFacts.

Section Generic.
Context {num : Type} {A : Arithmetic num}.

(** The interpolators that agree on everything but the cache. *)
Definition same_grid (s1 s2 : t num) : Prop :=
  origin s1 = origin s2 /\ delta s1 = delta s2 /\ val s1 = val s2
  /\ mask s1 = mask s2.

(** No cache entry holds an empty list of points. *)
Definition cache_nonempty (self : t num) : Prop :=
  Forall (fun entry : (num * num) * list (Z * Z) => snd entry <> [])
    (extrapolation_points self).

Lemma key_eqb_refl (x : num * num) : key_eqb x x = true.
Proof.
  unfold key_eqb. now rewrite !same_key_refl.
Qed.

Lemma dict_get_in {V : Type} (d : list ((num * num) * V)) (x : num * num)
    (v : V) :
  dict_get d x = Some v -> exists k, In (k, v) d.
Proof.
  induction d as [| [k w] d IH]; simpl; [discriminate|].
  destruct (key_eqb x k).
  - intros H. injection H as ->. exists k. now left.
  - intros H. destruct (IH H) as [k' Hk']. exists k'. now right.
Qed.

Lemma find_extrapolation_points_same_grid (self : t num) (x : num * num)
    (i j : Z) :
  same_grid (snd (find_extrapolation_points self x i j)) self.
Proof.
  unfold find_extrapolation_points, same_grid.
  destruct (dict_get (extrapolation_points self) x); [now repeat split|].
  destruct (mask self) as [m|] eqn:Em; [|now repeat split].
  destruct (collect m (neighbours i j)) as [pts | e]; [|now repeat split].
  destruct (Z.of_nat (List.length pts) =? 0); now repeat split.
Qed.

Lemma snd_except_IndexError {B S : Type} (body : outcome num B * S)
    (e : exn num) :
  snd (except_IndexError body e) = snd body.
Proof.
  unfold except_IndexError. destruct body as [[a | []] s]; reflexivity.
Qed.

Lemma interpolate_same_grid (self : t num) (x : num * num) (allow : bool)
    (i j : Z) (alpha beta : num) :
  same_grid (snd (interpolate self x allow i j alpha beta)) self.
Proof.
  unfold interpolate.
  destruct (mask self) as [m|] eqn:Em; [|now repeat split].
  destruct (masked_sums (val self) m i j alpha beta) as [[value sumw] | e];
    [|now repeat split].
  destruct (positive sumw); [now repeat split|].
  destruct allow; [|now repeat split].
  pose proof (find_extrapolation_points_same_grid self x i j) as H.
  destruct (find_extrapolation_points self x i j) as [[pts | e] self'];
    exact H.
Qed.

Lemma get_val_same_grid (self : t num) (x : num * num) (allow : bool) :
  same_grid (snd (get_val self x allow)) self.
Proof.
  unfold get_val.
  destruct (grid_indices self x) as [[[[xhat yhat] i] j] | e];
    [|now repeat split].
  destruct ((i <? 0) || (j <? 0)); [now repeat split|].
  rewrite snd_except_IndexError. apply interpolate_same_grid.
Qed.

Lemma interpolate_without_extrapolation (self : t num) (x : num * num)
    (i j : Z) (alpha beta : num) :
  snd (interpolate self x false i j alpha beta) = self.
Proof.
  unfold interpolate.
  destruct (mask self) as [m|]; [|reflexivity].
  destruct (masked_sums (val self) m i j alpha beta) as [[value sumw] | e];
    [|reflexivity].
  destruct (positive sumw); reflexivity.
Qed.

Lemma grid_indices_same_grid (s1 s2 : t num) (x : num * num) :
  same_grid s1 s2 -> grid_indices s1 x = grid_indices s2 x.
Proof.
  intros (Ho & Hd & _). unfold grid_indices. now rewrite Ho, Hd.
Qed.

(** A query either leaves the object as it is, or has searched for the
    points of [x] and stored them. *)
Lemma interpolate_cases (self : t num) (x : num * num) (allow : bool)
    (i j : Z) (alpha beta : num) :
  snd (interpolate self x allow i j alpha beta) = self
  \/ exists m value sumw pts,
       mask self = Some m
       /\ masked_sums (val self) m i j alpha beta = Return (value, sumw)
       /\ positive sumw = false
       /\ allow = true
       /\ interpolate self x allow i j alpha beta
          = (vs <- values_at (val self) pts ;;
             mean vs (Z.of_nat (List.length pts)),
             mk (origin self) (delta self) (val self) (mask self)
                ((x, pts) :: extrapolation_points self)).
Proof.
  unfold interpolate.
  destruct (mask self) as [m|] eqn:Em; [|now left].
  destruct (masked_sums (val self) m i j alpha beta) as [[value sumw] | e] eqn:Es;
    [|now left].
  destruct (positive sumw) eqn:Ep; [now left|].
  destruct allow; [|now left].
  unfold find_extrapolation_points.
  destruct (dict_get (extrapolation_points self) x) as [pts|]; [now left|].
  rewrite Em.
  destruct (collect m (neighbours i j)) as [pts | e]; [|now left].
  destruct (Z.of_nat (List.length pts) =? 0); [now left|].
  right. exists m, value, sumw, pts. rewrite <- Em. repeat split; assumption.
Qed.

(** Asking again: the second search is answered from the cache. *)
Lemma interpolate_again (self : t num) (x : num * num) (allow : bool)
    (i j : Z) (alpha beta : num) :
  interpolate (snd (interpolate self x allow i j alpha beta)) x allow i j
    alpha beta
  = interpolate self x allow i j alpha beta.
Proof.
  destruct (interpolate_cases self x allow i j alpha beta)
    as [-> | (m & value & sumw & pts & Em & Es & Ep & -> & ->)];
    [reflexivity|].
  cbn [snd]. unfold interpolate, find_extrapolation_points.
  cbn [mask val extrapolation_points dict_get origin delta].
  rewrite Em, Es, Ep, key_eqb_refl. reflexivity.
Qed.

Lemma find_extrapolation_points_nonempty (self : t num) (x : num * num)
    (i j : Z) (pts : list (Z * Z)) :
  cache_nonempty self ->
  fst (find_extrapolation_points self x i j) = Return pts -> pts <> [].
Proof.
  intros Hc. unfold find_extrapolation_points.
  destruct (dict_get (extrapolation_points self) x) as [pts'|] eqn:Ec.
  - cbn [fst]. intros H. injection H as <-.
    destruct (dict_get_in _ _ _ Ec) as [k Hk].
    unfold cache_nonempty in Hc. rewrite Forall_forall in Hc.
    exact (Hc _ Hk).
  - destruct (mask self) as [m|]; [|discriminate].
    destruct (collect m (neighbours i j)) as [pts' | e]; [|discriminate].
    destruct (Z.of_nat (List.length pts') =? 0) eqn:El; [discriminate|].
    cbn [fst]. intros H. injection H as <-.
    intros ->. discriminate El.
Qed.

Lemma find_extrapolation_points_keeps_cache_nonempty (self : t num)
    (x : num * num) (i j : Z) :
  cache_nonempty self ->
  cache_nonempty (snd (find_extrapolation_points self x i j)).
Proof.
  intros Hc. unfold find_extrapolation_points.
  destruct (dict_get (extrapolation_points self) x); [exact Hc|].
  destruct (mask self) as [m|]; [|exact Hc].
  destruct (collect m (neighbours i j)) as [pts | e]; [|exact Hc].
  destruct (Z.of_nat (List.length pts) =? 0) eqn:El; [exact Hc|].
  cbn [snd]. unfold cache_nonempty. cbn [extrapolation_points].
  constructor; [|exact Hc]. cbn [snd]. intros ->. discriminate El.
Qed.

Lemma get_val_keeps_cache_nonempty (self : t num) (x : num * num)
    (allow : bool) :
  cache_nonempty self -> cache_nonempty (snd (get_val self x allow)).
Proof.
  intros Hc. unfold get_val.
  destruct (grid_indices self x) as [[[[xhat yhat] i] j] | e]; [|exact Hc].
  destruct ((i <? 0) || (j <? 0)); [exact Hc|].
  rewrite snd_except_IndexError. unfold interpolate.
  destruct (mask self) as [m|]; [|exact Hc].
  destruct (masked_sums _ _ _ _ _ _) as [[value sumw] | e]; [|exact Hc].
  destruct (positive sumw); [exact Hc|].
  destruct allow; [|exact Hc].
  pose proof (find_extrapolation_points_keeps_cache_nonempty self x i j Hc)
    as H.
  destruct (find_extrapolation_points _ _ _ _) as [[pts | e] self']; exact H.
Qed.

Lemma values_at_raises (v : ndarray num) (pts : list (Z * Z)) (e : exn num) :
  values_at v pts = Raise e -> e = IndexError.
Proof.
  induction pts as [| [a b] rest IH]; simpl; [discriminate|].
  destruct (getitem2 v a b) as [q | e'] eqn:E; simpl.
  - destruct (values_at v rest) as [vs | e'']; simpl; [discriminate|].
    intros H. injection H as <-. now apply IH.
  - intros H. injection H as <-. exact (getitem2_raises _ _ _ _ E).
Qed.

Lemma masked_sums_raises (v m : ndarray num) (i j : Z) (alpha beta : num)
    (e : exn num) :
  masked_sums v m i j alpha beta = Raise e -> e = IndexError.
Proof.
  unfold masked_sums.
  repeat match goal with
         | |- context [getitem2 ?a ?k ?l] =>
             let E := fresh "E" in
             destruct (getitem2 a k l) eqn:E; cbn [bind];
             [| intros H; injection H as <-; exact (getitem2_raises _ _ _ _ E)]
         end.
  discriminate.
Qed.

Lemma bilinear_raises (v : ndarray num) (i j : Z) (alpha beta : num)
    (e : exn num) :
  bilinear v i j alpha beta = Raise e -> e = IndexError.
Proof.
  unfold bilinear.
  repeat match goal with
         | |- context [getitem2 ?a ?k ?l] =>
             let E := fresh "E" in
             destruct (getitem2 a k l) eqn:E; cbn [bind];
             [| intros H; injection H as <-; exact (getitem2_raises _ _ _ _ E)]
         end.
  discriminate.
Qed.

End Generic.
End Cache.

(** X1.  A query changes nothing of an interpolator but its cache: origin,
    delta, field and mask are those of before, and a query without
    extrapolation leaves the whole object as it was. *)
Theorem get_val_changes_only_the_cache :
  forall (num : Type) (A : Arithmetic num) (self : Interpolator.t num)
         (x : num * num) (allow_extrapolation : bool),
    let self' := snd (Interpolator.get_val self x allow_extrapolation) in
    Interpolator.origin self' = Interpolator.origin self
    /\ Interpolator.delta self' = Interpolator.delta self
    /\ Interpolator.val self' = Interpolator.val self
    /\ Interpolator.mask self' = Interpolator.mask self
    /\ snd (Interpolator.get_val self x false) = self.
Proof.
  intros num A self x allow self'.
  destruct (Cache.get_val_same_grid self x allow) as (Ho & Hd & Hv & Hm).
  repeat split; try assumption.
  unfold Interpolator.get_val.
  destruct (Interpolator.grid_indices self x) as [[[[xhat yhat] i] j] | e];
    [|reflexivity].
  destruct ((i <? 0) || (j <? 0)); [reflexivity|].
  rewrite Cache.snd_except_IndexError.
  apply Cache.interpolate_without_extrapolation.
Qed.


(** A candidate is usable when numpy reads a nonzero mask value for it. *)
Definition usable {num : Type} {A : Arithmetic num} (m : ndarray num)
    (p : Z * Z) : Prop :=
  exists v, getitem2 m (fst p) (snd p) = Return v /\ truthy v = true.

Module Search.
Import Interpolator.

Lemma collect_complete {num : Type} {A : Arithmetic num} (m : ndarray num)
    (ijs pts : list (Z * Z)) :
  collect m ijs = Return pts ->
  forall p, In p ijs -> usable m p -> In p pts.
Proof.
  revert pts. induction ijs as [| [a b] rest IH]; simpl; intros pts H p Hp Hu.
  - contradiction.
  - destruct (getitem2 m a b) as [v | e] eqn:E.
    + destruct (collect m rest) as [pts' | e'] eqn:E'; simpl in H; [|discriminate].
      injection H as <-.
      destruct Hp as [<- | Hp].
      * destruct Hu as (v' & Hv' & Ht). cbn [fst snd] in Hv'.
        rewrite E in Hv'. injection Hv' as <-. rewrite Ht. now left.
      * specialize (IH _ eq_refl p Hp Hu).
        destruct (truthy v); [now right | exact IH].
    + rewrite (getitem2_raises _ _ _ _ E) in H.
      destruct Hp as [<- | Hp].
      * destruct Hu as (v' & Hv' & _). cbn [fst snd] in Hv'.
        rewrite E in Hv'. discriminate Hv'.
      * exact (IH _ H p Hp Hu).
Qed.

End Search.

(** X3.  On a first search for [x], with a mask set,
    [find_extrapolation_points] returns exactly the candidates among the
    twelve for which numpy reads a nonzero mask value, and there is at
    least one; when there is none it raises the coordinate error "Inside
    landmask - tried extrapolating but failed" with [x], [i] and [j].  It
    raises nothing else. *)
Theorem find_extrapolation_points_outcome :
  forall (num : Type) (A : Arithmetic num) (self : Interpolator.t num)
         (m : ndarray num) (x : num * num) (i j : Z),
    Interpolator.mask self = Some m ->
    Interpolator.dict_get (Interpolator.extrapolation_points self) x = None ->
    match fst (Interpolator.find_extrapolation_points self x i j) with
    | Return pts =>
        pts <> []
        /\ forall p, In p pts <-> In p (Interpolator.neighbours i j) /\ usable m p
    | Raise e =>
        e = CoordinateError "Inside landmask - tried extrapolating but failed"
              x i j
        /\ forall p, In p (Interpolator.neighbours i j) -> ~ usable m p
    end.
Proof.
  intros num A self m x i j Hm Hc. unfold Interpolator.find_extrapolation_points.
  rewrite Hc, Hm.
  destruct (Extrapolation.collect_returns m (Interpolator.neighbours i j))
    as [pts Hcol].
  rewrite Hcol.
  destruct (Z.of_nat (List.length pts) =? 0) eqn:El; cbn [fst].
  - split; [reflexivity|]. intros p Hp Hu.
    pose proof (Search.collect_complete _ _ _ Hcol p Hp Hu) as Hin.
    destruct pts; [contradiction | discriminate El].
  - split; [intros ->; discriminate El|].
    intros p. split.
    + intros Hp. exact (Extrapolation.collect_sound _ _ _ Hcol p Hp).
    + intros [Hp Hu]. exact (Search.collect_complete _ _ _ Hcol p Hp Hu).
Qed.

Lemma find_extrapolation_points_outcome_witness :
  match fst (Interpolator.find_extrapolation_points
               (example_interpolator (Some two_point_mask))
               (1.5, 1.5)%float 1 1) with
  | Return pts =>
      pts <> []
      /\ forall p, In p pts
                   <-> In p (Interpolator.neighbours 1 1)
                       /\ usable two_point_mask p
  | Raise e =>
      e = CoordinateError "Inside landmask - tried extrapolating but failed"
            (1.5, 1.5)%float 1 1
      /\ forall p, In p (Interpolator.neighbours 1 1)
                   -> ~ usable two_point_mask p
  end.
Proof.
  apply (find_extrapolation_points_outcome float numpy_float64
           (example_interpolator (Some two_point_mask)) two_point_mask
           (1.5, 1.5)%float 1 1); reflexivity.
Defined.

(** X4.  Whatever the ranks and shapes of field and mask, on an
    interpolator whose cache has no empty entry, an exception that
    [get_val] raises is either the one that lines 58-61 raise before the
    indices are there (an origin or a step that is missing, a division that
    fails, a quotient without a floor), or a coordinate error that carries
    the queried coordinate and the indices computed for it; and the cache
    of the object it leaves has no empty entry either. *)
Theorem get_val_raises_only_CoordinateError :
  forall (num : Type) (A : Arithmetic num) (self : Interpolator.t num)
         (x : num * num) (allow_extrapolation : bool),
    Cache.cache_nonempty self ->
    (forall e,
        fst (Interpolator.get_val self x allow_extrapolation) = Raise e ->
        Interpolator.grid_indices self x = Raise e
        \/ exists xhat yhat i j message,
             Interpolator.grid_indices self x = Return (xhat, yhat, i, j)
             /\ e = CoordinateError message x i j)
    /\ Cache.cache_nonempty
         (snd (Interpolator.get_val self x allow_extrapolation)).
Proof.
  intros num A self x allow Hc.
  split; [|now apply Cache.get_val_keeps_cache_nonempty].
  intros e. unfold Interpolator.get_val.
  destruct (Interpolator.grid_indices self x) as [[[[xhat yhat] i] j] | e0];
    [|cbn [fst]; intros H; injection H as <-; now left].
  intros H. right. exists xhat, yhat, i, j.
  assert (G : exists message, e = CoordinateError message x i j);
    [|destruct G as [message G]; exists message; now split].
  revert H.
  destruct ((i <? 0) || (j <? 0)).
  { cbn [fst]. intros H. injection H as <-. now eexists. }
  assert (Hbody : forall e',
             fst (Interpolator.interpolate self x allow i j
                    (mod1 xhat) (mod1 yhat)) = Raise e' ->
             e' = IndexError
             \/ exists message, e' = CoordinateError message x i j).
  { intros e'. unfold Interpolator.interpolate.
    destruct (Interpolator.mask self) as [m|] eqn:Em.
    - destruct (Interpolator.masked_sums _ _ _ _ _ _) as [[value sumw] | e0] eqn:Es.
      + destruct (positive sumw) eqn:Ep.
        { destruct (truediv_positive value sumw Ep) as [v ->]. discriminate. }
        destruct allow.
        * pose proof (Cache.find_extrapolation_points_nonempty self x i j) as Hne.
          destruct (Interpolator.find_extrapolation_points self x i j)
            as [[pts | e0] self'] eqn:Ef; cbn [fst] in *.
          -- specialize (Hne pts Hc eq_refl).
             destruct (Interpolator.values_at _ pts) as [vs | e0] eqn:Ev;
               cbn [bind].
             ++ destruct pts as [| p pts]; [contradiction|].
                rewrite Extrapolation.mean_nonempty.
                discriminate.
             ++ intros H. injection H as <-. left.
                exact (Cache.values_at_raises _ _ _ Ev).
          -- intros H. injection H as <-. right.
             revert Ef. unfold Interpolator.find_extrapolation_points.
             destruct (Interpolator.dict_get _ x); [discriminate|].
             rewrite Em.
             destruct (Extrapolation.collect_returns m
                         (Interpolator.neighbours i j)) as [pts Hcol].
             rewrite Hcol.
             destruct (Z.of_nat (List.length pts) =? 0); [|discriminate].
             intros [= <- _]. now eexists.
        * cbn [fst]. intros H. injection H as <-. right. now eexists.
      + cbn [fst]. intros H. injection H as <-. left.
        exact (Cache.masked_sums_raises _ _ _ _ _ _ _ Es).
    - cbn [fst]. intros H. left. exact (Cache.bilinear_raises _ _ _ _ _ _ H). }
  unfold except_IndexError.
  destruct (Interpolator.interpolate self x allow i j _ _) as [[v | e'] s'];
    cbn [fst snd] in *; [discriminate|].
  destruct (Hbody e' eq_refl) as [-> | [message ->]].
  - intros H. injection H as <-. now eexists.
  - intros H. injection H as <-. now eexists.
Qed.

Lemma get_val_raises_only_CoordinateError_witness :
  (forall e,
      fst (Interpolator.get_val
             (Interpolator.__init__ [0%float; 0%float] [1%float; 1%float]
                example_field (Some (Array1 4 (fun _ => 1%float))))
             (0.5, 0.5)%float true) = Raise e ->
      Interpolator.grid_indices
        (Interpolator.__init__ [0%float; 0%float] [1%float; 1%float]
           example_field (Some (Array1 4 (fun _ => 1%float))))
        (0.5, 0.5)%float = Raise e
      \/ exists xhat yhat i j message,
           Interpolator.grid_indices
             (Interpolator.__init__ [0%float; 0%float] [1%float; 1%float]
                example_field (Some (Array1 4 (fun _ => 1%float))))
             (0.5, 0.5)%float = Return (xhat, yhat, i, j)
           /\ e = CoordinateError message (0.5, 0.5)%float i j)
  /\ Cache.cache_nonempty
       (snd (Interpolator.get_val
               (Interpolator.__init__ [0%float; 0%float] [1%float; 1%float]
                  example_field (Some (Array1 4 (fun _ => 1%float))))
               (0.5, 0.5)%float true)).
Proof.
  apply (get_val_raises_only_CoordinateError float numpy_float64
           (Interpolator.__init__ [0%float; 0%float] [1%float; 1%float]
              example_field (Some (Array1 4 (fun _ => 1%float))))
           (0.5, 0.5)%float true).
  constructor.
Defined.

(** X7.  In a cell inside the grid and away from its near edges ([i >= 1],
    [j >= 1], for the indices that lines 58-61 compute) where the sum of
    the masked weights is not above zero, a first query with extrapolation
    returns the sum of the field over the candidates of the search that lie
    inside the array and have a nonzero mask value, divided by their
    number, and fails with the coordinate error "Inside landmask - tried
    extrapolating but failed" when there is no such candidate. *)
Theorem get_val_extrapolation_mean :
  forall (num : Type) (A : Arithmetic num) (nx ny : Z) (f g : Z -> Z -> num)
         (self : Interpolator.t num) (x : num * num) (xhat yhat : num)
         (i j : Z),
    Interpolator.val self = Array2 nx ny f ->
    Interpolator.mask self = Some (Array2 nx ny g) ->
    Interpolator.dict_get (Interpolator.extrapolation_points self) x = None ->
    Interpolator.grid_indices self x = Return (xhat, yhat, i, j) ->
    corners_inside nx ny i j -> 1 <= i -> 1 <= j ->
    positive (InterpolatorFacts.weight_sum g i j (mod1 xhat) (mod1 yhat))
    = false ->
    let pts := filter (valid_point nx ny g) (Interpolator.neighbours i j) in
    fst (Interpolator.get_val self x true) =
    match pts with
    | [] => Raise (CoordinateError
                     "Inside landmask - tried extrapolating but failed" x i j)
    | _ :: _ =>
        Return (truediv_int
                  (Interpolator.sum (map (fun p => f (fst p) (snd p)) pts))
                  (Z.of_nat (List.length pts)))
    end.
Proof.
  intros num A nx ny f g self x xhat yhat i j Hv Hm Hc Hidx Hin Hi Hj Hneg.
  exact (Extrapolation.get_val_extrapolation_interior
           nx ny f g self x xhat yhat i j Hv Hm Hc Hidx Hin Hi Hj Hneg).
Qed.

Lemma get_val_extrapolation_mean_witness :
  fst (Interpolator.get_val (example_interpolator (Some two_point_mask))
         (1.5, 1.5)%float true)
  = Return (truediv_int
              (Interpolator.sum [Binary64.of_int (2 + 0);
                                 Binary64.of_int (3 + 1)])
              (Z.of_nat 2)).
Proof.
  apply (get_val_extrapolation_mean float numpy_float64 4 4
           (fun i j => Binary64.of_int (i + j))
           (fun i j =>
              if ((i =? 3) && (j =? 1)) || ((i =? 2) && (j =? 0))
              then 1%float else 0%float)
           (example_interpolator (Some two_point_mask)) (1.5, 1.5)%float
           1.5%float 1.5%float 1 1);
    try reflexivity; try lia.
  unfold corners_inside. lia.
Defined.

(** ** The window and the requested ranges *)

Module WindowFacts.
Import NetCDFInterpolator.

Lemma nth_error_combine {B C : Type} (l1 : list B) (l2 : list C) (k : nat)
    (x : B) (y : C) :
  nth_error (combine l1 l2) k = Some (x, y) <->
  nth_error l1 k = Some x /\ nth_error l2 k = Some y.
Proof.
  revert l2 k. induction l1 as [| a l1 IH]; intros [| b l2] [| k]; simpl;
    try (split; [discriminate | intros [H1 H2]; discriminate]).
  - split; [intros [= -> ->]; now split | intros [[= ->] [= ->]]; reflexivity].
  - apply IH.
Qed.

Lemma nth_error_zip4 {B C D E : Type} (a : list B) (b : list C) (c : list D)
    (d : list E) (k : nat) (xa : B) (xb : C) (xc : D) (xd : E) :
  nth_error (zip4 a b c d) k = Some (xa, xb, xc, xd) <->
  nth_error a k = Some xa /\ nth_error b k = Some xb
  /\ nth_error c k = Some xc /\ nth_error d k = Some xd.
Proof.
  unfold zip4. rewrite !nth_error_combine. tauto.
Qed.

Section Generic.
Context {num : Type} {A : Arithmetic num}.

Lemma range_loop_length (axes : list ((num * num) * num * Z * num)) (u : unit)
    (ir : list (Z * Z)) (origin_new : list num) (shape_new : list Z) :
  range_loop axes = (Return u, (ir, origin_new, shape_new)) ->
  List.length ir = List.length axes
  /\ List.length origin_new = List.length axes
  /\ List.length shape_new = List.length axes.
Proof.
  revert ir origin_new shape_new.
  induction axes as [| [[[xl xmin] xshape] deltax] rest IH];
    intros ir origin_new shape_new H.
  - cbn [range_loop] in H. inversion H. now repeat split.
  - cbn [range_loop] in H.
    destruct (axis_range xl xmin xshape deltax) as [[imin imax] | e];
      [|discriminate].
    destruct (range_loop rest) as [r [[ir' o'] s']].
    injection H as -> <- <- <-.
    destruct (IH _ _ _ eq_refl) as (H1 & H2 & H3).
    cbn [List.length]. now rewrite H1, H2, H3.
Qed.

(** The two clamps keep a window inside the axis. *)
Lemma window_inside (xlimits : num * num) (xmin : num) (xshape : Z)
    (deltax : num) (imin imax : Z) :
  window xlimits xmin xshape deltax = Return (imin, imax) ->
  0 <= imin /\ imax <= xshape.
Proof.
  unfold window.
  destruct (truediv _ deltax) as [q0 | e]; cbn [bind]; [|discriminate].
  destruct (floor q0) as [k0 | e]; cbn [bind]; [|discriminate].
  destruct (truediv _ deltax) as [q1 | e]; cbn [bind]; [|discriminate].
  destruct (int q1) as [k1 | e]; cbn [bind]; [|discriminate].
  intros H. injection H as <- <-. lia.
Qed.

(** In the arithmetic, the index of a coordinate along an axis with a step
    above zero does not decrease with the coordinate.  It holds of an
    arithmetic whose subtraction and division by a number above zero are
    monotone, as are the exact ones and the correctly rounded ones of
    binary64. *)
Definition cell_monotone : Prop :=
  forall (o d a b qa qb : num) (ra rb : Q) (m n : Z),
    positive d = true ->
    rational a = Return ra -> rational b = Return rb -> (ra <= rb)%Q ->
    truediv (a - o)%num d = Return qa -> truediv (b - o)%num d = Return qb ->
    floor qa = Return m -> floor qb = Return n ->
    m <= n.

(** [int] of a number whose floor is not negative is that floor. *)
Lemma int_of_floor_nonneg (q : num) (m : Z) :
  floor q = Return m -> 0 <= m -> int q = Return m.
Proof.
  unfold floor, int. destruct (rational q) as [r | e]; cbn [bind];
    [|discriminate].
  intros H Hm. injection H as <-. rewrite truncate_nonneg; [reflexivity|].
  eapply Qle_trans; [|apply Qfloor_le].
  change 0%Q with (inject_Z 0). rewrite <- Zle_Qle. exact Hm.
Qed.

Lemma int_floor_returns (q : num) (k : Z) :
  int q = Return k -> exists m, floor q = Return m.
Proof.
  unfold floor, int. destruct (rational q) as [r | e]; cbn [bind];
    [|discriminate].
  intros _. eexists. reflexivity.
Qed.

(** With a step above zero the window of an axis holds the cell, and the
    far corner of the cell, of every coordinate between the requested
    bounds whose cell and far corner are in the grid. *)
Lemma window_covers (xlimits : num * num) (xmin : num) (xshape : Z)
    (deltax p q : num) (rl rp rh : Q) (imin imax c : Z) :
  cell_monotone ->
  window xlimits xmin xshape deltax = Return (imin, imax) ->
  positive deltax = true ->
  rational (fst xlimits) = Return rl -> rational p = Return rp ->
  rational (snd xlimits) = Return rh ->
  (rl <= rp)%Q -> (rp <= rh)%Q ->
  truediv (p - xmin)%num deltax = Return q -> floor q = Return c ->
  0 <= c -> c + 1 < xshape ->
  imin <= c /\ c + 1 < imax.
Proof.
  intros Hmono Hw Hd Hrl Hrp Hrh Hlo Hhi Hq Hc Hc0 Hc1.
  unfold window in Hw.
  destruct (truediv (fst xlimits - xmin)%num deltax) as [q0 | e] eqn:E0;
    cbn [bind] in Hw; [|discriminate].
  destruct (floor q0) as [k0 | e] eqn:F0; cbn [bind] in Hw; [|discriminate].
  destruct (truediv (snd xlimits - xmin)%num deltax) as [q1 | e] eqn:E1;
    cbn [bind] in Hw; [|discriminate].
  destruct (int q1) as [k1 | e] eqn:I1; cbn [bind] in Hw; [|discriminate].
  injection Hw as <- <-.
  destruct (int_floor_returns q1 k1 I1) as [m1 F1].
  pose proof (Hmono xmin deltax (fst xlimits) p q0 q rl rp k0 c
                Hd Hrl Hrp Hlo E0 Hq F0 Hc) as H0.
  pose proof (Hmono xmin deltax p (snd xlimits) q q1 rp rh c m1
                Hd Hrp Hrh Hhi Hq E1 Hc F1) as H1.
  assert (Hk1 : k1 = m1).
  { rewrite (int_of_floor_nonneg q1 m1 F1) in I1 by lia. congruence. }
  lia.
Qed.

End Generic.
End WindowFacts.

(** X8.  After a successful [set_ranges] the window of every axis is a
    non-empty index range inside the grid as it was,
    [0 <= imin < imax <= shape], there is one window per axis of the new
    shape, and the new length of the axis is [imax - imin]. *)
Theorem set_ranges_window_inside_grid :
  forall (num : Type) (A : Arithmetic num)
         (self self' : NetCDFInterpolator.t num) (ranges : list (num * num)),
    NetCDFInterpolator.set_ranges self ranges = (Return tt, self') ->
    exists ir,
      NetCDFInterpolator.iranges self' = Some ir
      /\ List.length ir = List.length (NetCDFInterpolator.shape self')
      /\ forall (k : nat) (imin imax : Z),
           nth_error ir k = Some (imin, imax) ->
           exists xshape,
             nth_error (NetCDFInterpolator.shape self) k = Some xshape
             /\ 0 <= imin /\ imin < imax /\ imax <= xshape
             /\ nth_error (NetCDFInterpolator.shape self') k
                = Some (imax - imin).
Proof.
  intros num A self self' ranges H.
  destruct (Window.set_ranges_returns _ _ _ _ H)
    as (ir & origin_new & shape_new & Hloop & Hir & Ho & Hs & _).
  destruct (WindowFacts.range_loop_length _ _ _ _ _ Hloop) as (L1 & _ & L3).
  exists ir. split; [exact Hir|]. split; [rewrite Hs; congruence|].
  intros k imin imax Hk.
  assert (Hlt : (k < List.length (zip4 ranges (NetCDFInterpolator.origin self)
                                    (NetCDFInterpolator.shape self)
                                    (NetCDFInterpolator.delta self)))%nat).
  { rewrite <- L1. apply nth_error_Some. congruence. }
  apply nth_error_Some in Hlt.
  destruct (nth_error (zip4 _ _ _ _) k) as [[[[xl xmin] xshape] deltax] |] eqn:Ek;
    [|contradiction].
  destruct (Window.range_loop_returns _ _ _ _ _ Hloop k _ _ _ _ Ek)
    as (imin' & imax' & Hw & Hlt' & Hk1 & _ & Hk3).
  rewrite Hk in Hk1. injection Hk1 as <- <-.
  apply WindowFacts.nth_error_zip4 in Ek. destruct Ek as (_ & _ & Hshape & _).
  destruct (WindowFacts.window_inside xl xmin xshape deltax _ _ Hw) as [W0 W1].
  exists xshape. rewrite Hs. repeat split; assumption.
Qed.

Lemma set_ranges_window_inside_grid_witness :
  exists ir,
    NetCDFInterpolator.iranges
      (snd (NetCDFInterpolator.set_ranges example_reader
              [(2.2, 2.4)%float; (2.2, 2.4)%float])) = Some ir
    /\ List.length ir
       = List.length
           (NetCDFInterpolator.shape
              (snd (NetCDFInterpolator.set_ranges example_reader
                      [(2.2, 2.4)%float; (2.2, 2.4)%float])))
    /\ forall (k : nat) (imin imax : Z),
         nth_error ir k = Some (imin, imax) ->
         exists xshape,
           nth_error (NetCDFInterpolator.shape example_reader) k = Some xshape
           /\ 0 <= imin /\ imin < imax /\ imax <= xshape
           /\ nth_error
                (NetCDFInterpolator.shape
                   (snd (NetCDFInterpolator.set_ranges example_reader
                           [(2.2, 2.4)%float; (2.2, 2.4)%float]))) k
              = Some (imax - imin).
Proof.
  apply (set_ranges_window_inside_grid float numpy_float64 example_reader
           (snd (NetCDFInterpolator.set_ranges example_reader
                   [(2.2, 2.4)%float; (2.2, 2.4)%float]))
           [(2.2, 2.4)%float; (2.2, 2.4)%float]).
  reflexivity.
Defined.

(** *** Exact arithmetic *)

(** The arithmetic of the rational numbers, without rounding: an
    arithmetic in which the index of a coordinate is monotone.  A division
    by zero raises [ZeroDivisionError]; the division of a number by the
    integer zero, which numpy answers with an infinity or a [nan], has no
    rational value and is given the value zero. *)
Module Exact.

Definition truediv (a b : Q) : outcome Q Q :=
  if Qeq_bool b 0 then Raise ZeroDivisionError else Return (a / b)%Q.

Definition positive (a : Q) : bool := negb (Qle_bool a 0).

Lemma positive_spec (a : Q) : positive a = true <-> (0 < a)%Q.
Proof.
  unfold positive. rewrite negb_true_iff.
  destruct (Qle_bool a 0) eqn:E.
  - apply Qle_bool_iff in E. split; [discriminate | intros H; exfalso; lra].
  - split; [intros _ | reflexivity].
    destruct (Qlt_le_dec 0 a) as [H | H]; [exact H|].
    apply Qle_bool_iff in H. congruence.
Qed.

Lemma exact_truediv_returns (a b : Q) :
  positive b = true -> exists v, truediv a b = Return v.
Proof.
  intros H. apply positive_spec in H. unfold truediv.
  destruct (Qeq_bool b 0) eqn:E; [|eexists; reflexivity].
  apply Qeq_bool_iff in E. exfalso. lra.
Qed.

End Exact.

#[export] Instance exact_rational : Arithmetic Q := {|
  zero := 0%Q;
  one := 1%Q;
  add := Qplus;
  sub := Qminus;
  mul := Qmult;
  truediv := Exact.truediv;
  truediv_int := fun a n => (a / inject_Z n)%Q;
  of_int := inject_Z;
  rational := fun a => Return a;
  mod1 := fun a => (a - inject_Z (Qfloor a))%Q;
  positive := Exact.positive;
  truthy := fun a => negb (Qeq_bool a 0);
  equal := Qeq_bool;
  same_key := Qeq_bool;
  same_key_refl := Qeq_bool_refl;
  truediv_positive := Exact.exact_truediv_returns
|}.

Lemma exact_rational_cell_monotone :
  WindowFacts.cell_monotone (A := exact_rational).
Proof.
  intros o d a b qa qb ra rb m n Hd Ha Hb Hle Hqa Hqb Hm Hn.
  change (@Return Q Q a = Return ra) in Ha.
  change (@Return Q Q b = Return rb) in Hb.
  change (Exact.positive d = true) in Hd.
  change (Exact.truediv (a - o)%Q d = Return qa) in Hqa.
  change (Exact.truediv (b - o)%Q d = Return qb) in Hqb.
  change (@Return Q Z (Qfloor qa) = Return m) in Hm.
  change (@Return Q Z (Qfloor qb) = Return n) in Hn.
  injection Ha as <-. injection Hb as <-.
  injection Hm as <-. injection Hn as <-.
  apply Exact.positive_spec in Hd.
  unfold Exact.truediv in Hqa, Hqb.
  destruct (Qeq_bool d 0); [discriminate|].
  injection Hqa as <-. injection Hqb as <-.
  apply Qfloor_resp_le. unfold Qdiv. apply Qmult_le_compat_r; [lra|].
  apply Qinv_le_0_compat. lra.
Qed.

(** A reader on the example grid in exact arithmetic. *)
Definition exact_reader : NetCDFInterpolator.t Q :=
  NetCDFInterpolator.mk
    {| dimensions := [("nx"%string, 4); ("ny"%string, 4)];
       variables := [("z"%string, Array2 4 4 (fun i j => inject_Z (i + j)))] |}
    [4; 4] [0%Q; 0%Q] [1%Q; 1%Q] None None (Has None) Missing Missing.



(** ** The order of the set-up calls *)

(** X11.  On a reader without a field, selecting the field and then
    setting the ranges succeeds exactly when setting the ranges and then
    selecting the field does, and both orders leave the same object. *)
Theorem set_field_set_ranges_commute :
  forall (num : Type) (A : Arithmetic num)
         (self final : NetCDFInterpolator.t num) (name : string)
         (ranges : list (num * num)),
    NetCDFInterpolator.interpolator self = Has None ->
    (exists mid,
        NetCDFInterpolator.set_field self name = (Return tt, mid)
        /\ NetCDFInterpolator.set_ranges mid ranges = (Return tt, final))
    <->
    (exists mid,
        NetCDFInterpolator.set_ranges self ranges = (Return tt, mid)
        /\ NetCDFInterpolator.set_field mid name = (Return tt, final)).
Proof.
  intros num A self final name ranges Hi.
  split; intros (mid & H1 & H2).
  - unfold NetCDFInterpolator.set_field, NetCDFInterpolator.load in H1.
    simpl in H1.
    destruct (dict_getitem (variables (NetCDFInterpolator.nc self)) name)
      as [v | e] eqn:Ev; [|discriminate].
    destruct (NetCDFInterpolator.iranges self) as [ir0 |] eqn:Eir.
    { simpl in H1. destruct (window_slice v ir0); [|discriminate].
      injection H1 as <-.
      unfold NetCDFInterpolator.set_ranges in H2. simpl in H2.
      rewrite ?Eir in H2. discriminate. }
    simpl in H1. injection H1 as <-.
    unfold NetCDFInterpolator.set_ranges in H2 |- *. simpl in H2.
    rewrite ?Eir in H2. rewrite ?Eir.
    destruct (NetCDFInterpolator.range_loop _)
      as [[[] | e] [[ir o'] s']]; [|discriminate].
    simpl. rewrite Hi.
    destruct (NetCDFInterpolator.mask self) as [m |].
    + destruct (window_slice m ir) as [m' | e]; simpl in H2 |- *;
        [|discriminate].
      destruct (window_slice v ir) as [v' | e] eqn:Es; [|discriminate].
      injection H2 as <-. eexists. split; [reflexivity|].
      unfold NetCDFInterpolator.set_field, NetCDFInterpolator.load. simpl.
      rewrite ?Ev. simpl. rewrite ?Es. reflexivity.
    + simpl in H2 |- *.
      destruct (window_slice v ir) as [v' | e] eqn:Es; [|discriminate].
      injection H2 as <-. eexists. split; [reflexivity|].
      unfold NetCDFInterpolator.set_field, NetCDFInterpolator.load. simpl.
      rewrite ?Ev. simpl. rewrite ?Es. reflexivity.
  - unfold NetCDFInterpolator.set_ranges in H1.
    destruct (NetCDFInterpolator.iranges self) as [ir0 |] eqn:Eir;
      [discriminate|].
    destruct (NetCDFInterpolator.range_loop _)
      as [[[] | e] [[ir o'] s']] eqn:El; [|discriminate].
    simpl in H1. rewrite Hi in H1.
    unfold NetCDFInterpolator.set_field, NetCDFInterpolator.load.
    unfold NetCDFInterpolator.set_field, NetCDFInterpolator.load in H2.
    destruct (NetCDFInterpolator.mask self) as [m |] eqn:Em.
    + destruct (window_slice m ir) as [m' | e] eqn:Esm; simpl in H1;
        [|discriminate].
      injection H1 as <-. simpl in H2.
      destruct (dict_getitem (variables (NetCDFInterpolator.nc self)) name)
        as [v | e] eqn:Ev; [|discriminate].
      simpl in H2.
      destruct (window_slice v ir) as [v' | e] eqn:Es; [|discriminate].
      injection H2 as <-. simpl. rewrite ?Eir. simpl. rewrite ?Ev. simpl.
      eexists. split; [reflexivity|].
      unfold NetCDFInterpolator.set_ranges. simpl.
      rewrite ?Eir, ?El. simpl. rewrite ?Em. simpl. rewrite ?Esm. simpl.
      rewrite ?Es. reflexivity.
    + simpl in H1. injection H1 as <-. simpl in H2.
      destruct (dict_getitem (variables (NetCDFInterpolator.nc self)) name)
        as [v | e] eqn:Ev; [|discriminate].
      simpl in H2.
      destruct (window_slice v ir) as [v' | e] eqn:Es; [|discriminate].
      injection H2 as <-. simpl. rewrite ?Eir. simpl. rewrite ?Ev. simpl.
      eexists. split; [reflexivity|].
      unfold NetCDFInterpolator.set_ranges. simpl.
      rewrite ?Eir, ?El. simpl. rewrite ?Em. simpl.
      rewrite ?Es. reflexivity.
Qed.

Lemma set_field_set_ranges_commute_witness :
  exists mid,
    NetCDFInterpolator.set_ranges example_reader
      [(2.2, 2.4)%float; (2.2, 2.4)%float] = (Return tt, mid)
    /\ NetCDFInterpolator.set_field mid "z"
       = (Return tt,
          snd (NetCDFInterpolator.set_ranges
                 (snd (NetCDFInterpolator.set_field example_reader "z"))
                 [(2.2, 2.4)%float; (2.2, 2.4)%float])).
Proof.
  apply (proj1 (set_field_set_ranges_commute float numpy_float64
                  example_reader
                  (snd (NetCDFInterpolator.set_ranges
                          (snd (NetCDFInterpolator.set_field example_reader "z"))
                          [(2.2, 2.4)%float; (2.2, 2.4)%float]))
                  "z" [(2.2, 2.4)%float; (2.2, 2.4)%float] eq_refl)).
  exists (snd (NetCDFInterpolator.set_field example_reader "z")).
  split; reflexivity.
Defined.

Module Broken.
Import NetCDFInterpolator.

Lemma zip4_length {B C D E : Type} (a : list B) (b : list C) (c : list D)
    (d : list E) :
  (List.length (zip4 a b c d) <= List.length a)%nat.
Proof. unfold zip4. rewrite !length_combine. lia. Qed.

Section Generic.
Context {num : Type} {A : Arithmetic num}.

(** A loop that is left by an exception has appended fewer windows than
    there are axes. *)
Lemma range_loop_raises_short (axes : list ((num * num) * num * Z * num))
    (e : exn num) (ir : list (Z * Z)) (origin_new : list num)
    (shape_new : list Z) :
  range_loop axes = (Raise e, (ir, origin_new, shape_new)) ->
  (List.length ir < List.length axes)%nat.
Proof.
  revert ir origin_new shape_new.
  induction axes as [| [[[xl xmin] xshape] deltax] rest IH];
    intros ir origin_new shape_new H.
  - discriminate H.
  - cbn [range_loop] in H.
    destruct (axis_range xl xmin xshape deltax) as [[imin imax] | e0].
    + destruct (range_loop rest) as [r [[ir' o'] s']].
      injection H as -> <- _ _. cbn [List.length].
      specialize (IH _ _ _ eq_refl). lia.
    + injection H as _ <- _ _. cbn [List.length]. lia.
Qed.

Lemma window_slice_raises (v : ndarray num) (ir : list (Z * Z)) (e : exn num) :
  window_slice v ir = Raise e -> e = IndexError.
Proof.
  unfold window_slice, list_getitem.
  destruct (nth_error ir 0); cbn [bind]; [|congruence].
  destruct (nth_error ir 1); cbn [bind]; [|congruence].
  destruct v; simpl; congruence.
Qed.

Lemma window_slice_short (v : ndarray num) (ir : list (Z * Z)) :
  (List.length ir < 2)%nat -> window_slice v ir = Raise IndexError.
Proof.
  intros H. unfold window_slice, list_getitem.
  destruct ir as [| r0 [| r1 ir]]; cbn in *; try reflexivity. lia.
Qed.

(** A call of [set_ranges] that raises the configuration error of an empty
    window has left a list of windows shorter than the list of ranges. *)
Lemma set_ranges_outside (self : t num) (ranges : list (num * num)) :
  fst (set_ranges self ranges)
  = Raise (NetCDFInterpolatorError "Provided ranges outside netCDF range") ->
  exists ir,
    iranges (snd (set_ranges self ranges)) = Some ir
    /\ (List.length ir < List.length ranges)%nat
    /\ nc (snd (set_ranges self ranges)) = nc self
    /\ interpolator (snd (set_ranges self ranges)) = interpolator self.
Proof.
  unfold set_ranges.
  destruct (iranges self); [discriminate|].
  destruct (range_loop _) as [[[] | e] [[ir o'] s']] eqn:El.
  - cbn [mask].
    destruct (mask self) as [m|]; cbn [bind].
    + destruct (window_slice m ir) as [m' | e] eqn:Em; cbn [bind].
      * cbn [interpolator val].
        destruct (interpolator self) as [| [ip |]]; try discriminate.
        destruct (val self) as [| v]; [discriminate|].
        destruct (window_slice v ir) as [v' | e] eqn:Ev; [discriminate|].
        cbn [fst]. rewrite (window_slice_raises _ _ _ Ev). discriminate.
      * cbn [fst]. rewrite (window_slice_raises _ _ _ Em). discriminate.
    + cbn [interpolator val].
      destruct (interpolator self) as [| [ip |]]; try discriminate.
      destruct (val self) as [| v]; [discriminate|].
      destruct (window_slice v ir) as [v' | e] eqn:Ev; [discriminate|].
      cbn [fst]. rewrite (window_slice_raises _ _ _ Ev). discriminate.
  - intros _. exists ir. cbn [snd iranges nc interpolator].
    pose proof (range_loop_raises_short _ _ _ _ _ El) as H.
    pose proof (zip4_length ranges (origin self) (shape self) (delta self)).
    repeat split; lia.
Qed.

End Generic.
End Broken.

(** X12.  A call of [set_ranges] with at most two ranges that fails with
    the configuration error "Provided ranges outside netCDF range" leaves
    the reader with an incomplete window: afterwards [set_field] and
    [set_mask] on a variable of the file raise [IndexError], and a second
    [set_ranges] is refused, so the reader cannot be given a field
    any more. *)
Theorem set_ranges_outside_breaks_reader :
  forall (num : Type) (A : Arithmetic num) (self : NetCDFInterpolator.t num)
         (ranges : list (num * num)) (name : string) (v : ndarray num),
    (List.length ranges <= 2)%nat ->
    fst (NetCDFInterpolator.set_ranges self ranges)
    = Raise (NetCDFInterpolatorError "Provided ranges outside netCDF range") ->
    dict_getitem (num:=num) (variables (NetCDFInterpolator.nc self)) name
    = Return v ->
    let self' := snd (NetCDFInterpolator.set_ranges self ranges) in
    fst (NetCDFInterpolator.set_field self' name) = Raise IndexError
    /\ fst (NetCDFInterpolator.set_mask self' name) = Raise IndexError
    /\ NetCDFInterpolator.interpolator
         (snd (NetCDFInterpolator.set_field self' name))
       = NetCDFInterpolator.interpolator self.
Proof.
  intros num A self ranges name v Hlen Hfail Hv self'.
  destruct (Broken.set_ranges_outside self ranges Hfail)
    as (ir & Hir & Hshort & Hnc & Hi).
  fold self' in Hir, Hnc, Hi.
  assert (Hslice : window_slice v ir = Raise IndexError)
    by (apply Broken.window_slice_short; lia).
  unfold NetCDFInterpolator.set_field, NetCDFInterpolator.set_mask,
    NetCDFInterpolator.load.
  cbn [NetCDFInterpolator.nc NetCDFInterpolator.iranges].
  rewrite Hnc, Hv, Hir. cbn [bind]. rewrite Hslice. cbn [fst snd].
  repeat split. cbn [NetCDFInterpolator.interpolator]. exact Hi.
Qed.

Lemma set_ranges_outside_breaks_reader_witness :
  fst (NetCDFInterpolator.set_field
         (snd (NetCDFInterpolator.set_ranges example_reader
                 [(5, 6)%float; (2.2, 2.4)%float])) "z")
  = Raise IndexError
  /\ fst (NetCDFInterpolator.set_mask
            (snd (NetCDFInterpolator.set_ranges example_reader
                    [(5, 6)%float; (2.2, 2.4)%float])) "z")
     = Raise IndexError
  /\ NetCDFInterpolator.interpolator
       (snd (NetCDFInterpolator.set_field
               (snd (NetCDFInterpolator.set_ranges example_reader
                       [(5, 6)%float; (2.2, 2.4)%float])) "z"))
     = NetCDFInterpolator.interpolator example_reader.
Proof.
  apply (set_ranges_outside_breaks_reader float numpy_float64 example_reader
           [(5, 6)%float; (2.2, 2.4)%float] "z" example_field).
  - simpl. lia.
  - reflexivity.
  - reflexivity.
Defined.

(** ** Readers on two files, and names *)

Module Names.

Lemma dict_getitem_missing {num V : Type} (d : list (string * V))
    (key : string) :
  ~ In key (map fst d) -> dict_getitem (num:=num) d key = Raise (KeyError key).
Proof.
  induction d as [| [k v] d IH]; simpl; intros H; [reflexivity|].
  destruct (String.eqb key k) eqn:E.
  - apply String.eqb_eq in E. exfalso. apply H. left. now symmetry.
  - apply IH. intros Hin. apply H. now right.
Qed.

End Names.

(** X15.  A reader built from the grid of another reader (coordinates and
    mask in one file, values in another) answers like that reader: when
    both files hold the same array under a name and [set_field] of that
    name succeeds on the other reader, it succeeds on the copy and every
    query returns the same outcome on both. *)
Theorem copy_answers_like_original :
  forall (num : Type) (A : Arithmetic num) (nc : NetCDFFile num)
         (nci : NetCDFInterpolator.t num) (name : string)
         (v : ndarray num) (x : num * num) (allow_extrapolation : bool),
    dict_getitem (num:=num) (variables nc) name = Return v ->
    dict_getitem (num:=num) (variables (NetCDFInterpolator.nc nci)) name
    = Return v ->
    fst (NetCDFInterpolator.set_field nci name) = Return tt ->
    exists copy,
      NetCDFInterpolator.__init__ nc (NetCDFInterpolator.FromGrid nci) []
      = Return copy
      /\ fst (NetCDFInterpolator.set_field copy name) = Return tt
      /\ fst (NetCDFInterpolator.get_val
                (snd (NetCDFInterpolator.set_field copy name))
                x allow_extrapolation)
         = fst (NetCDFInterpolator.get_val
                  (snd (NetCDFInterpolator.set_field nci name))
                  x allow_extrapolation).
Proof.
  intros num A nc nci name v x allow Hv Hv' Hok.
  eexists. split; [reflexivity|].
  unfold NetCDFInterpolator.set_field, NetCDFInterpolator.load in *.
  cbn [NetCDFInterpolator.nc NetCDFInterpolator.iranges
       NetCDFInterpolator.mask NetCDFInterpolator.origin
       NetCDFInterpolator.delta NetCDFInterpolator.shape] in *.
  rewrite Hv. rewrite Hv' in Hok |- *. cbn [bind] in *.
  destruct (match NetCDFInterpolator.iranges nci with
            | Some ir => window_slice v ir
            | None => Return v
            end) as [v' | e]; [|discriminate Hok].
  split; [reflexivity|].
  cbn [snd]. unfold NetCDFInterpolator.get_val.
  cbn [NetCDFInterpolator.interpolator].
  now destruct (Interpolator.get_val _ x allow).
Qed.

Lemma copy_answers_like_original_witness :
  exists copy,
    NetCDFInterpolator.__init__ example_file
      (NetCDFInterpolator.FromGrid
         (snd (NetCDFInterpolator.set_ranges example_reader
                 [(2.2, 2.4)%float; (2.2, 2.4)%float]))) []
    = Return copy
    /\ fst (NetCDFInterpolator.set_field copy "z") = Return tt
    /\ fst (NetCDFInterpolator.get_val
              (snd (NetCDFInterpolator.set_field copy "z"))
              (2.5, 2.5)%float false)
       = fst (NetCDFInterpolator.get_val
                (snd (NetCDFInterpolator.set_field
                        (snd (NetCDFInterpolator.set_ranges example_reader
                                [(2.2, 2.4)%float; (2.2, 2.4)%float]))
                        "z"))
                (2.5, 2.5)%float false).
Proof.
  apply (copy_answers_like_original float numpy_float64 example_file
           (snd (NetCDFInterpolator.set_ranges example_reader
                   [(2.2, 2.4)%float; (2.2, 2.4)%float]))
           "z" example_field (2.5, 2.5)%float false); reflexivity.
Defined.

(** X16.  [set_mask] and [set_field] can be called in either order: both
    orders leave the same object, whatever the outcomes of the two calls;
    in particular a mask set after the field reaches the interpolator
    exactly as a mask set before it, with an empty cache. *)
Theorem set_mask_set_field_commute :
  forall (num : Type) (A : Arithmetic num) (self : NetCDFInterpolator.t num)
         (mask_name field_name : string),
    snd (NetCDFInterpolator.set_field
           (snd (NetCDFInterpolator.set_mask self mask_name)) field_name)
    = snd (NetCDFInterpolator.set_mask
             (snd (NetCDFInterpolator.set_field self field_name)) mask_name).
Proof.
  intros num A self mname fname.
  destruct (dict_getitem (num:=num)
              (variables (NetCDFInterpolator.nc self)) mname)
    as [m | em] eqn:Em;
    destruct (dict_getitem (num:=num)
                (variables (NetCDFInterpolator.nc self)) fname)
      as [v | ev] eqn:Ef;
    destruct (NetCDFInterpolator.iranges self) as [ir |] eqn:Eir;
    destruct (NetCDFInterpolator.interpolator self) as [| [ip |]] eqn:Ei;
    try destruct (window_slice m ir) as [m' | em'] eqn:Esm;
    try destruct (window_slice v ir) as [v' | ev'] eqn:Esv;
    unfold NetCDFInterpolator.set_field, NetCDFInterpolator.set_mask,
      NetCDFInterpolator.load, NetCDFInterpolator.update_interpolator_mask;
    repeat (cbn [NetCDFInterpolator.nc NetCDFInterpolator.iranges
                 NetCDFInterpolator.interpolator NetCDFInterpolator.mask
                 NetCDFInterpolator.origin NetCDFInterpolator.delta
                 NetCDFInterpolator.shape NetCDFInterpolator.val
                 NetCDFInterpolator.field_name bind snd fst];
            rewrite ?Em, ?Ef, ?Eir, ?Ei, ?Esm, ?Esv);
    reflexivity.
Qed.

(** X17.  A name that is not a variable of the file: [set_field] and
    [set_mask] raise [KeyError] with that name, [set_mask] leaves the
    reader as it was, and after the failed [set_field] every query gives
    the outcome it gave before. *)
Theorem unknown_variable_is_harmless :
  forall (num : Type) (A : Arithmetic num) (self : NetCDFInterpolator.t num)
         (name : string) (x : num * num) (allow_extrapolation : bool),
    ~ In name (map fst (variables (NetCDFInterpolator.nc self))) ->
    NetCDFInterpolator.set_mask self name = (Raise (KeyError name), self)
    /\ fst (NetCDFInterpolator.set_field self name) = Raise (KeyError name)
    /\ fst (NetCDFInterpolator.get_val
              (snd (NetCDFInterpolator.set_field self name))
              x allow_extrapolation)
       = fst (NetCDFInterpolator.get_val self x allow_extrapolation).
Proof.
  intros num A self name x allow H.
  pose proof (Names.dict_getitem_missing (num:=num) _ _ H) as Hk.
  unfold NetCDFInterpolator.set_mask, NetCDFInterpolator.set_field,
    NetCDFInterpolator.load.
  cbn [NetCDFInterpolator.nc]. rewrite Hk. cbn [bind fst snd].
  repeat split.
  unfold NetCDFInterpolator.get_val. cbn [NetCDFInterpolator.interpolator].
  destruct (NetCDFInterpolator.interpolator self) as [| [ip |]];
    try reflexivity.
  now destruct (Interpolator.get_val ip x allow).
Qed.

Lemma unknown_variable_is_harmless_witness :
  NetCDFInterpolator.set_mask example_reader "mask"
  = (Raise (KeyError "mask"), example_reader)
  /\ fst (NetCDFInterpolator.set_field example_reader "mask")
     = Raise (KeyError "mask")
  /\ fst (NetCDFInterpolator.get_val
            (snd (NetCDFInterpolator.set_field example_reader "mask"))
            (0.5, 0.5)%float false)
     = fst (NetCDFInterpolator.get_val example_reader (0.5, 0.5)%float false).
Proof.
  apply (unknown_variable_is_harmless float numpy_float64 example_reader
           "mask" (0.5, 0.5)%float false).
  simpl. intros [H | [H | [H | [H | []]]]]; discriminate H.
Defined.

(** ** Interpolation inside a window *)

(** Two outcomes that agree as far as a caller of the reader sees a value:
    the same number, or two failures. *)
Definition agree {num : Type} (r1 r2 : outcome num num) : Prop :=
  match r1, r2 with
  | Return v1, Return v2 => v1 = v2
  | Raise _, Raise _ => True
  | _, _ => False
  end.

(** The part of an array that starts at [(a, b)]. *)
Definition shifted {num : Type} (f : Z -> Z -> num) (a b : Z)
  : Z -> Z -> num :=
  fun i j => f (a + i) (b + j).

Module Windowed.
Import Interpolator InterpolatorFacts.

Section Generic.
Context {num : Type} {A : Arithmetic num}.

Lemma blend_shifted (f : Z -> Z -> num) (a b i j : Z) (alpha beta : num) :
  blend alpha beta (shifted f a b (i - a) (j - b))
    (shifted f a b (i - a + 1) (j - b)) (shifted f a b (i - a) (j - b + 1))
    (shifted f a b (i - a + 1) (j - b + 1))
  = blend alpha beta (f i j) (f (i + 1) j) (f i (j + 1)) (f (i + 1) (j + 1)).
Proof.
  unfold shifted.
  replace (a + (i - a)) with i by ring.
  replace (b + (j - b)) with j by ring.
  replace (a + (i - a + 1)) with (i + 1) by ring.
  replace (b + (j - b + 1)) with (j + 1) by ring.
  reflexivity.
Qed.

Lemma weight_sum_shifted (g : Z -> Z -> num) (a b i j : Z) (alpha beta : num) :
  weight_sum (shifted g a b) (i - a) (j - b) alpha beta
  = weight_sum g i j alpha beta.
Proof.
  unfold weight_sum, shifted.
  replace (a + (i - a)) with i by ring.
  replace (b + (j - b)) with j by ring.
  replace (a + (i - a + 1)) with (i + 1) by ring.
  replace (b + (j - b + 1)) with (j + 1) by ring.
  reflexivity.
Qed.

Lemma weighted_value_shifted (f g : Z -> Z -> num) (a b i j : Z)
    (alpha beta : num) :
  weighted_value (shifted f a b) (shifted g a b) (i - a) (j - b) alpha beta
  = weighted_value f g i j alpha beta.
Proof.
  unfold weighted_value, shifted.
  replace (a + (i - a)) with i by ring.
  replace (b + (j - b)) with j by ring.
  replace (a + (i - a + 1)) with (i + 1) by ring.
  replace (b + (j - b + 1)) with (j + 1) by ring.
  reflexivity.
Qed.

Section Window.

Variables (nx ny : Z) (f : Z -> Z -> num).
Variables (a b mx my : Z).
Hypothesis window_x : 0 <= a /\ a + mx <= nx.
Hypothesis window_y : 0 <= b /\ b + my <= ny.

(** The interpolator on the whole grid and the one on the window, and a
    point for which the window gives the indices of the whole grid moved
    by the lower corner of the window, and the same position inside the
    cell. *)
Variables whole part : t num.
Hypothesis whole_val : val whole = Array2 nx ny f.
Hypothesis part_val : val part = Array2 mx my (shifted f a b).

Variables (x : num * num) (xhat yhat xhat' yhat' : num) (i j : Z).
Hypothesis whole_indices : grid_indices whole x = Return (xhat, yhat, i, j).
Hypothesis part_indices :
  grid_indices part x = Return (xhat', yhat', i - a, j - b).
Hypothesis same_alpha : mod1 xhat' = mod1 xhat.
Hypothesis same_beta : mod1 yhat' = mod1 yhat.
Hypothesis cell_x : a <= i /\ i + 1 < a + mx.
Hypothesis cell_y : b <= j /\ j + 1 < b + my.

Lemma whole_inside : corners_inside nx ny i j.
Proof. unfold corners_inside. lia. Qed.

Lemma part_inside : corners_inside mx my (i - a) (j - b).
Proof. unfold corners_inside. lia. Qed.

Lemma unmasked_window (allow : bool) :
  mask whole = None -> mask part = None ->
  agree (fst (get_val part x allow)) (fst (get_val whole x allow)).
Proof.
  intros Hw Hp.
  rewrite (get_val_unmasked mx my (shifted f a b) part part_val x xhat' yhat'
             (i - a) (j - b) part_indices allow Hp part_inside).
  rewrite (get_val_unmasked nx ny f whole whole_val x xhat yhat i j
             whole_indices allow Hw whole_inside).
  cbn [fst agree]. rewrite same_alpha, same_beta, blend_shifted. reflexivity.
Qed.

Variable g : Z -> Z -> num.

Lemma masked_window :
  mask whole = Some (Array2 nx ny g) ->
  mask part = Some (Array2 mx my (shifted g a b)) ->
  agree (fst (get_val part x false)) (fst (get_val whole x false)).
Proof.
  intros Hw Hp.
  rewrite (get_val_masked mx my (shifted f a b) part part_val x xhat' yhat'
             (i - a) (j - b) part_indices (shifted g a b) Hp false
             part_inside).
  rewrite (get_val_masked nx ny f whole whole_val x xhat yhat i j
             whole_indices g Hw false whole_inside).
  rewrite same_alpha, same_beta, weight_sum_shifted, weighted_value_shifted.
  destruct (positive _); cbn [except_IndexError fst snd agree]; [|exact I].
  destruct (truediv _ _) as [v | e]; cbn [fst agree]; [reflexivity|].
  destruct e; exact I.
Qed.

End Window.

(** A window inside an array is the array from its lower corner on. *)
Lemma slice2_window (n0 n1 : Z) (f : Z -> Z -> num) (r0 r1 : Z * Z) :
  0 <= fst r0 -> fst r0 < snd r0 -> snd r0 <= n0 ->
  0 <= fst r1 -> fst r1 < snd r1 -> snd r1 <= n1 ->
  slice2 (Array2 n0 n1 f) r0 r1
  = Return (Array2 (snd r0 - fst r0) (snd r1 - fst r1)
              (shifted f (fst r0) (fst r1))).
Proof.
  intros. unfold slice2, slice_bound, shifted.
  replace (fst r0 <? 0) with false by (symmetry; apply Z.ltb_ge; lia).
  replace (snd r0 <? 0) with false by (symmetry; apply Z.ltb_ge; lia).
  replace (fst r1 <? 0) with false by (symmetry; apply Z.ltb_ge; lia).
  replace (snd r1 <? 0) with false by (symmetry; apply Z.ltb_ge; lia).
  replace (Z.min (fst r0) (Z.max n0 0)) with (fst r0) by lia.
  replace (Z.min (snd r0) (Z.max n0 0)) with (snd r0) by lia.
  replace (Z.min (fst r1) (Z.max n1 0)) with (fst r1) by lia.
  replace (Z.min (snd r1) (Z.max n1 0)) with (snd r1) by lia.
  replace (Z.max (snd r0 - fst r0) 0) with (snd r0 - fst r0) by lia.
  replace (Z.max (snd r1 - fst r1) 0) with (snd r1 - fst r1) by lia.
  reflexivity.
Qed.

End Generic.
End Windowed.

Module ReaderFacts.
Import NetCDFInterpolator.

Section Generic.
Context {num : Type} {A : Arithmetic num}.

(** A reader with a field answers through its interpolator. *)
Lemma get_val_delegates (self : t num) (ip : Interpolator.t num)
    (x : num * num) (allow : bool) :
  interpolator self = Has (Some ip) ->
  fst (get_val self x allow) = fst (Interpolator.get_val ip x allow).
Proof.
  intros H. unfold get_val. rewrite H.
  now destruct (Interpolator.get_val ip x allow).
Qed.

(** The window of a grid with two axes. *)
Lemma two_axis_loop (r0 r1 : num * num) (x0 y0 dx dy : num) (nx ny : Z)
    (u : unit) (ir : list (Z * Z)) (origin_new : list num)
    (shape_new : list Z) :
  range_loop (zip4 [r0; r1] [x0; y0] [nx; ny] [dx; dy])
  = (Return u, (ir, origin_new, shape_new)) ->
  exists w0 w1,
    window r0 x0 nx dx = Return w0
    /\ window r1 y0 ny dy = Return w1
    /\ ir = [w0; w1]
    /\ origin_new = [(x0 + of_int (fst w0) * dx)%num;
                     (y0 + of_int (fst w1) * dy)%num]
    /\ shape_new = [snd w0 - fst w0; snd w1 - fst w1]
    /\ fst w0 < snd w0 /\ fst w1 < snd w1.
Proof.
  cbn [zip4 combine range_loop].
  destruct (axis_range r0 x0 nx dx) as [[imin0 imax0] | e0] eqn:E0;
    [|discriminate].
  destruct (axis_range r1 y0 ny dy) as [[imin1 imax1] | e1] eqn:E1;
    [|discriminate].
  intros [= _ <- <- <-].
  destruct (Window.axis_range_returns _ _ _ _ _ E0) as [W0 L0].
  destruct (Window.axis_range_returns _ _ _ _ _ E1) as [W1 L1].
  exists (imin0, imax0), (imin1, imax1). cbn [fst snd] in *.
  repeat split; assumption.
Qed.

End Generic.
End ReaderFacts.



(** In binary64 the proviso can fail: the new origin [xmin+imin*deltax] and
    the quotient taken from it are rounded.  On a grid of step 0.1 whose
    rows 6 and 7 are land, the point (0.6, 0.05) is mapped to
    5.999999999999999 and gets a value from row 5; once the window starts
    at row 1 it is mapped to 5.0, which is row 6 of the file, and the query
    fails. *)
Definition coast_file : NetCDFFile float := {|
  dimensions := [("nx"%string, 8); ("ny"%string, 4)];
  variables :=
    [("z"%string, Array2 8 4 (fun i j => Binary64.of_int (i + j)));
     ("mask"%string,
      Array2 8 4 (fun i _ => if i <? 6 then 1%float else 0%float))]
|}.

Definition coast_reader : NetCDFInterpolator.t float :=
  snd (NetCDFInterpolator.set_field
         (snd (NetCDFInterpolator.set_mask
                 (NetCDFInterpolator.mk coast_file [8; 4]
                    [0%float; 0%float] [0.1%float; 0.1%float]
                    None None (Has None) Missing Missing)
                 "mask"))
         "z").

Example set_ranges_rounds_the_origin :
  fst (NetCDFInterpolator.get_val coast_reader (0.6, 0.05)%float false)
  = Return 5.5%float
  /\ fst (NetCDFInterpolator.set_ranges coast_reader
            [(0.2, 0.7)%float; (0, 0.2)%float]) = Return tt
  /\ fst (NetCDFInterpolator.get_val
            (snd (NetCDFInterpolator.set_ranges coast_reader
                    [(0.2, 0.7)%float; (0, 0.2)%float]))
            (0.6, 0.05)%float false)
     = Raise (CoordinateError "Probing point inside land mask"
                (0.6, 0.05)%float 5 0).
Proof.
  repeat split; vm_compute; reflexivity.
Qed.

(** ** From the file to the value *)


